(** * clhaskell-cdk: the CDK app, its DNS stack and its static website stacks

    A shallow embedding of the three source files of the repository:

    - [bin] script (the entry point): reads the configuration from the CDK
      context and the process environment, validates it, constructs one
      [DnsStack] and three [StaticWebsiteStack]s, and calls [app.synth()];
    - [lib/dns-stack.ts]: the hosted zone, the cross-account role, outputs;
    - [lib/static-website-stack.ts]: bucket, certificate, origin access
      identity, distribution, alias record, deployment, outputs.

    The construct library (aws-cdk-lib) is external.  A [new X(scope, id,
    props)] is modelled as what the source says: the declaration of a
    construct [X] with identifier [id] and the given properties inside the
    enclosing stack.  Attributes that the library resolves at deploy time
    ([hostedZoneId], [roleArn], ...) stay symbolic.  Of what the library
    does on behalf of a construct, the model keeps the access a bucket
    deployment is given to its destination bucket; the helper constructs
    the library adds to a stack are not part of the tree.  Errors raised
    inside the library are outside the model; the only exception of the
    program's own is the one thrown by the validation loop. *)

From Stdlib Require Import String Ascii ZArith List Bool Lia.
From stdpp Require Import base option list strings gmap pretty.
Import ListNotations.
Local Open Scope string_scope.
Local Open Scope Z_scope.
Set Warnings "-register-all".

(** ** JavaScript values

    [app.node.tryGetContext] is typed [any]: a context value is whatever
    JSON [cdk.json] or [--context] supplies.  Numbers are the integers;
    an object or array is kept with the string it coerces to. *)

Inductive jsval : Type :=
  | JUndefined
  | JNull
  | JBool (b : bool)
  | JNum (n : Z)
  | JStr (s : string)
  | JObject (repr : string).

#[global] Instance jsval_eq_dec : EqDecision jsval.
Proof. solve_decision. Defined.

(** ToBoolean: [undefined], [null], [false], [0] and the empty string are
    falsy; everything else is truthy. *)
Definition truthy (v : jsval) : bool :=
  match v with
  | JUndefined | JNull => false
  | JBool b => b
  | JNum n => negb (n =? 0)
  | JStr s => negb (String.eqb s "")
  | JObject _ => true
  end.

(** [a || b] *)
Definition js_or (a b : jsval) : jsval := if truthy a then a else b.

(** ToString, as a template literal applies it. *)
Definition toString (v : jsval) : string :=
  match v with
  | JUndefined => "undefined"
  | JNull => "null"
  | JBool true => "true"
  | JBool false => "false"
  | JNum n => pretty n
  | JStr s => s
  | JObject repr => repr
  end.

(** [String.prototype.toUpperCase] on the ASCII letters; the script applies
    it to the names of [requiredFields] only. *)
Definition upper_ascii (c : ascii) : ascii :=
  let n := nat_of_ascii c in
  if (97 <=? n)%nat && (n <=? 122)%nat then ascii_of_nat (n - 32) else c.

Fixpoint toUpperCase (s : string) : string :=
  match s with
  | EmptyString => EmptyString
  | String c rest => String (upper_ascii c) (toUpperCase rest)
  end.

(** [haystack.includes(needle)] *)
Fixpoint includes (haystack needle : string) : bool :=
  String.prefix needle haystack ||
  match haystack with
  | EmptyString => false
  | String _ rest => includes rest needle
  end.

(** ** Context and environment *)

(** The context of the root construct and [process.env]. *)
Definition context := gmap string jsval.
Definition environment := gmap string string.

(** [app.node.tryGetContext(key)]: the value, or [undefined]. *)
Definition tryGetContext (ctx : context) (key : string) : jsval :=
  default JUndefined (ctx !! key).

(** [process.env.NAME]: a string, or [undefined]. *)
Definition process_env (env : environment) (name : string) : jsval :=
  from_option JStr JUndefined (env !! name).

(** ** The configuration object (entry point, lines 11-22) *)

Record config : Type := {
  dnsAccount : jsval;
  betaAccount : jsval;
  gammaAccount : jsval;
  prodAccount : jsval;
  domainName : jsval;
  region : jsval;
}.

Definition read_config (ctx : context) (env : environment) : config := {|
  dnsAccount := js_or (tryGetContext ctx "dnsAccount") (process_env env "DNS_ACCOUNT_ID");
  betaAccount := js_or (tryGetContext ctx "betaAccount") (process_env env "BETA_ACCOUNT_ID");
  gammaAccount := js_or (tryGetContext ctx "gammaAccount") (process_env env "GAMMA_ACCOUNT_ID");
  prodAccount := js_or (tryGetContext ctx "prodAccount") (process_env env "PROD_ACCOUNT_ID");
  domainName := js_or (tryGetContext ctx "domainName") (process_env env "DOMAIN_NAME");
  region := js_or (tryGetContext ctx "region") (JStr "us-east-1");
|}.

(** [config[field]]: property lookup by name. *)
Definition config_lookup (c : config) (field : string) : jsval :=
  if String.eqb field "dnsAccount" then dnsAccount c
  else if String.eqb field "betaAccount" then betaAccount c
  else if String.eqb field "gammaAccount" then gammaAccount c
  else if String.eqb field "prodAccount" then prodAccount c
  else if String.eqb field "domainName" then domainName c
  else if String.eqb field "region" then region c
  else JUndefined.

Definition requiredFields : list string :=
  ["dnsAccount"; "betaAccount"; "gammaAccount"; "prodAccount"; "domainName"].

(** The environment variable the configuration object reads for a field,
    if it reads one. *)
Definition env_var (field : string) : option string :=
  if String.eqb field "dnsAccount" then Some "DNS_ACCOUNT_ID"
  else if String.eqb field "betaAccount" then Some "BETA_ACCOUNT_ID"
  else if String.eqb field "gammaAccount" then Some "GAMMA_ACCOUNT_ID"
  else if String.eqb field "prodAccount" then Some "PROD_ACCOUNT_ID"
  else if String.eqb field "domainName" then Some "DOMAIN_NAME"
  else None.

(** ** The construct library, as far as the source uses it *)

(** A construct is referred to by the stack it lives in and its identifier. *)
Record constructRef : Type := { ref_stack : string; ref_id : string }.

#[global] Instance constructRef_eq_dec : EqDecision constructRef.
Proof. solve_decision. Defined.

(** Attributes the library resolves when the declared state is applied. *)
Inductive attribute : Type :=
  | hostedZoneId_attr
  | hostedZoneArn_attr
  | hostedZoneNameServers_attr
  | roleArn_attr
  | bucketName_attr
  | distributionId_attr
  | distributionDomainName_attr.

#[global] Instance attribute_eq_dec : EqDecision attribute.
Proof. solve_decision. Defined.

(** A property value: a literal, a deploy-time attribute of a construct, an
    array literal, or [Fn.join(delimiter, list)]. *)
Inductive value : Type :=
  | Lit (v : jsval)
  | Attr (r : constructRef) (a : attribute)
  | ArrayLit (vs : list value)
  | FnJoin (delimiter : string) (listOfValues : value).

Inductive RemovalPolicy : Type :=
  | DESTROY
  | RETAIN
  | SNAPSHOT
  | RETAIN_ON_UPDATE_OR_DELETE.

#[global] Instance RemovalPolicy_eq_dec : EqDecision RemovalPolicy.
Proof. solve_decision. Defined.

Module cdk.
(** [StackProps.env]; the script passes it to every stack. *)
Record Environment : Type := { account : jsval; region : jsval }.

Record CfnOutputProps : Type := {
  value : value;
  description : string;
  exportName : option string;
}.
End cdk.

Module iam.
Inductive Effect : Type := ALLOW | DENY.

Inductive Principal : Type :=
  | AccountPrincipal (accountId : jsval)
  | CompositePrincipal (principals : list Principal).

Record PolicyStatement : Type := {
  effect : Effect;
  actions : list string;
  resources : list value;
}.

Record RoleProps : Type := {
  roleName : string;
  assumedBy : Principal;
  description : string;
}.
End iam.

Module route53.
Record PublicHostedZoneProps : Type := { zoneName : jsval }.

Record HostedZoneAttributes : Type := {
  hostedZoneId : value;
  zoneName' : jsval;
}.

Inductive AliasTarget : Type :=
  | CloudFrontTarget (distribution : constructRef).

Inductive RecordTarget : Type :=
  | fromAlias (aliasTarget : AliasTarget).

Record ARecordProps : Type := {
  zone : constructRef;
  recordName : jsval;
  target : RecordTarget;
}.
End route53.

Module s3.
Inductive BlockPublicAccess : Type := BLOCK_ALL | BLOCK_ACLS.

Record BucketProps : Type := {
  bucketName : string;
  websiteIndexDocument : string;
  publicReadAccess : bool;
  blockPublicAccess : BlockPublicAccess;
  removalPolicy : RemovalPolicy;
  autoDeleteObjects : bool;
}.
End s3.

Module acm.
Inductive CertificateValidation : Type :=
  | fromDns (hostedZone : constructRef).

Record CertificateProps : Type := {
  domainName : jsval;
  validation : CertificateValidation;
}.
End acm.

Module origins.
Record S3OriginProps : Type := { originAccessIdentity : constructRef }.

Inductive Origin : Type :=
  | S3Origin (bucket : constructRef) (props : S3OriginProps).
End origins.

Module cf.
Inductive ViewerProtocolPolicy : Type :=
  | HTTPS_ONLY
  | REDIRECT_TO_HTTPS
  | ALLOW_ALL.

Inductive CachePolicy : Type :=
  | CACHING_OPTIMIZED
  | CACHING_DISABLED.

Record OriginAccessIdentityProps : Type := { comment : string }.

Record BehaviorOptions : Type := {
  origin : origins.Origin;
  viewerProtocolPolicy : ViewerProtocolPolicy;
  cachePolicy : CachePolicy;
}.

Record ErrorResponse : Type := {
  httpStatus : Z;
  responseHttpStatus : Z;
  responsePagePath : string;
}.

Record DistributionProps : Type := {
  defaultBehavior : BehaviorOptions;
  domainNames : list jsval;
  certificate : constructRef;
  defaultRootObject : string;
  errorResponses : list ErrorResponse;
}.
End cf.

Module s3deploy.
(** [Source.asset(path.resolve(__dirname, relative))]: the directory of
    the compiled module is not known to the source, the relative path is. *)
Inductive Source : Type :=
  | asset_resolve_dirname (relative : string).

Record BucketDeploymentProps : Type := {
  sources : list Source;
  destinationBucket : constructRef;
  distribution : constructRef;
  distributionPaths : list string;
}.
End s3deploy.

(** What a stack holds under an identifier.  The second argument of
    [PublicHostedZone], [Role] and [Bucket] is what is added after
    construction: by [applyRemovalPolicy], [addToPolicy] and [grantRead] in
    the source, and by a bucket deployment onto its destination bucket. *)
Inductive construct : Type :=
  | PublicHostedZone (props : route53.PublicHostedZoneProps)
      (appliedRemovalPolicy : option RemovalPolicy)
  | Role (props : iam.RoleProps) (policy : list iam.PolicyStatement)
  | Bucket (props : s3.BucketProps) (readGrantees : list constructRef)
  | ImportedHostedZone (attrs : route53.HostedZoneAttributes)
  | Certificate (props : acm.CertificateProps)
  | OriginAccessIdentity (props : cf.OriginAccessIdentityProps)
  | Distribution (props : cf.DistributionProps)
  | ARecord (props : route53.ARecordProps)
  | BucketDeployment (props : s3deploy.BucketDeploymentProps)
  | CfnOutput (props : cdk.CfnOutputProps).

Record Stack : Type := {
  stackName : string;
  env : cdk.Environment;
  children : list (string * construct);
  dependencies : list string;
}.

(** ** Constructor bodies: state passing over the stack under construction *)

Definition StackM (A : Type) : Type := Stack -> A * Stack.

#[global] Instance StackM_ret : MRet StackM := fun A x s => (x, s).
#[global] Instance StackM_bind : MBind StackM :=
  fun A B f m s => let '(x, s') := m s in f x s'.

(** [super(scope, id, props)] *)
Definition super (id : string) (e : cdk.Environment) : Stack :=
  {| stackName := id; env := e; children := []; dependencies := [] |}.

(** [new X(this, id, props)] *)
Definition new (id : string) (c : construct) : StackM constructRef :=
  fun s =>
    ({| ref_stack := stackName s; ref_id := id |},
     {| stackName := stackName s; env := env s;
        children := children s ++ [(id, c)];
        dependencies := dependencies s |}).

(** [this.account], [this.stackName] *)
Definition this_account : StackM jsval := fun s => (cdk.account (env s), s).
Definition this_stackName : StackM string := fun s => (stackName s, s).

(** Update in place of the construct a reference points to. *)
Fixpoint update_child (id : string) (f : construct -> construct)
    (cs : list (string * construct)) : list (string * construct) :=
  match cs with
  | [] => []
  | (id', c) :: rest =>
      if String.eqb id id' then (id', f c) :: rest
      else (id', c) :: update_child id f rest
  end.

Definition mutate (r : constructRef) (f : construct -> construct) : StackM unit :=
  fun s =>
    (tt,
     {| stackName := stackName s; env := env s;
        children := update_child (ref_id r) f (children s);
        dependencies := dependencies s |}).

(** [zone.applyRemovalPolicy(policy)] *)
Definition applyRemovalPolicy (r : constructRef) (p : RemovalPolicy) : StackM unit :=
  mutate r (fun c =>
    match c with
    | PublicHostedZone props _ => PublicHostedZone props (Some p)
    | _ => c
    end).

(** [role.addToPolicy(statement)] *)
Definition addToPolicy (r : constructRef) (st : iam.PolicyStatement) : StackM unit :=
  mutate r (fun c =>
    match c with
    | Role props policy => Role props (policy ++ [st])
    | _ => c
    end).

(** [bucket.grantRead(grantee)] *)
Definition grantRead (r : constructRef) (grantee : constructRef) : StackM unit :=
  mutate r (fun c =>
    match c with
    | Bucket props grantees => Bucket props (grantees ++ [grantee])
    | _ => c
    end).

(** The construct a stack holds under an identifier. *)
Fixpoint lookup_child (id : string) (cs : list (string * construct))
  : option construct :=
  match cs with
  | [] => None
  | (id', c) :: rest => if String.eqb id id' then Some c else lookup_child id rest
  end.

(** [zone.hostedZoneNameServers]: defined for a zone the stack creates,
    [undefined] for an imported one. *)
Definition hostedZoneNameServers (r : constructRef) : StackM (option value) :=
  fun s =>
    (match lookup_child (ref_id r) (children s) with
     | Some (PublicHostedZone _ _) => Some (Attr r hostedZoneNameServers_attr)
     | _ => None
     end, s).

(** [zone.zoneName]: the name the zone was declared or imported with, as
    given. *)
Definition zoneName (r : constructRef) : StackM value :=
  fun s =>
    (match lookup_child (ref_id r) (children s) with
     | Some (PublicHostedZone props _) => Lit (route53.zoneName props)
     | Some (ImportedHostedZone attrs) => Lit (route53.zoneName' attrs)
     | _ => Lit JUndefined
     end, s).

(** [new s3deploy.BucketDeployment(this, id, props)]: the deployment is
    declared and, as the library does for the handler that copies the
    sources, given read and write access to the destination bucket.  The
    handler is referred to by the deployment; of the access, the bucket
    keeps the read part. *)
Definition new_BucketDeployment (id : string)
    (props : s3deploy.BucketDeploymentProps) : StackM constructRef :=
  deployment ← new id (BucketDeployment props);
  grantRead (s3deploy.destinationBucket props) deployment;;
  mret deployment.

(** ** lib/dns-stack.ts *)

Module dns_stack.

Record DnsStackProps : Type := {
  env : cdk.Environment;
  domainName : jsval;
  trustedAccountIds : list jsval;
}.

(** The public fields of the class. *)
Record DnsStack : Type := {
  hostedZone : constructRef;
  crossAccountRole : constructRef;
}.

Definition constructor (props : DnsStackProps) : StackM DnsStack :=
  hostedZone ← new "RootHostedZone"
    (PublicHostedZone {| route53.zoneName := domainName props |} None);
  applyRemovalPolicy hostedZone RETAIN_ON_UPDATE_OR_DELETE;;
  crossAccountRole ← new "CrossAccountDnsRole"
    (Role {| iam.roleName := "CrossAccountDnsManagementRole";
             iam.assumedBy :=
               iam.CompositePrincipal
                 (map (fun accountId => iam.AccountPrincipal accountId)
                      (trustedAccountIds props));
             iam.description := "Role allowing cross-account DNS record management" |}
          []);
  addToPolicy crossAccountRole
    {| iam.effect := iam.ALLOW;
       iam.actions := ["route53:ChangeResourceRecordSets";
                       "route53:GetChange";
                       "route53:ListResourceRecordSets"];
       iam.resources := [Attr hostedZone hostedZoneArn_attr;
                         Lit (JStr "arn:aws:route53:::change/*")] |};;
  addToPolicy crossAccountRole
    {| iam.effect := iam.ALLOW;
       iam.actions := ["route53:GetHostedZone"; "route53:ListHostedZones"];
       iam.resources := [Lit (JStr "*")] |};;
  stackName ← this_stackName;
  new "HostedZoneId"
    (CfnOutput {| cdk.value := Attr hostedZone hostedZoneId_attr;
                  cdk.description := "Hosted Zone ID";
                  cdk.exportName := Some (stackName ++ "-HostedZoneId") |});;
  hostedZoneName ← zoneName hostedZone;
  new "HostedZoneName"
    (CfnOutput {| cdk.value := hostedZoneName;
                  cdk.description := "Hosted Zone Name";
                  cdk.exportName := Some (stackName ++ "-HostedZoneName") |});;
  new "CrossAccountRoleArn"
    (CfnOutput {| cdk.value := Attr crossAccountRole roleArn_attr;
                  cdk.description := "ARN of the cross-account DNS management role";
                  cdk.exportName := Some (stackName ++ "-CrossAccountRoleArn") |});;
  nameServers ← hostedZoneNameServers hostedZone;
  new "NameServers"
    (CfnOutput {| cdk.value := FnJoin ", " (default (ArrayLit []) nameServers);
                  cdk.description := "Name servers for the hosted zone";
                  cdk.exportName := None |});;
  mret {| hostedZone := hostedZone; crossAccountRole := crossAccountRole |}.

End dns_stack.

(** ** lib/static-website-stack.ts *)

Module static_website_stack.

Record StaticWebsiteStackProps : Type := {
  env : cdk.Environment;
  domainName : jsval;
  hostedZoneId : value;
  hostedZoneName : jsval;
  crossAccountRoleArn : value;
  stageName : string;
}.

(** The public fields of the class. *)
Record StaticWebsiteStack : Type := {
  bucket : constructRef;
  distribution : constructRef;
}.

Definition constructor (props : StaticWebsiteStackProps) : StackM StaticWebsiteStack :=
  account ← this_account;
  bucket ← new "SiteBucket"
    (Bucket {| s3.bucketName := stageName props ++ "-website-" ++ toString account;
               s3.websiteIndexDocument := "index.html";
               s3.publicReadAccess := false;
               s3.blockPublicAccess := s3.BLOCK_ALL;
               s3.removalPolicy := DESTROY;
               s3.autoDeleteObjects := true |}
            []);
  hostedZone ← new "HostedZone"
    (ImportedHostedZone {| route53.hostedZoneId := hostedZoneId props;
                           route53.zoneName' := hostedZoneName props |});
  certificate ← new "Certificate"
    (Certificate {| acm.domainName := domainName props;
                    acm.validation := acm.fromDns hostedZone |});
  oai ← new "OAI"
    (OriginAccessIdentity
       {| cf.comment := "OAI for " ++ toString (domainName props) |});
  grantRead bucket oai;;
  distribution ← new "Distribution"
    (Distribution
       {| cf.defaultBehavior :=
            {| cf.origin :=
                 origins.S3Origin bucket
                   {| origins.originAccessIdentity := oai |};
               cf.viewerProtocolPolicy := cf.REDIRECT_TO_HTTPS;
               cf.cachePolicy := cf.CACHING_OPTIMIZED |};
          cf.domainNames := [domainName props];
          cf.certificate := certificate;
          cf.defaultRootObject := "index.html";
          cf.errorResponses :=
            [ {| cf.httpStatus := 404; cf.responseHttpStatus := 404;
                 cf.responsePagePath := "/error.html" |};
              {| cf.httpStatus := 403; cf.responseHttpStatus := 403;
                 cf.responsePagePath := "/error.html" |} ] |});
  new "AliasRecord"
    (ARecord {| route53.zone := hostedZone;
                route53.recordName := domainName props;
                route53.target :=
                  route53.fromAlias (route53.CloudFrontTarget distribution) |});;
  new_BucketDeployment "WebsiteDeployment"
    {| s3deploy.sources :=
         [s3deploy.asset_resolve_dirname "../../../clhaskellelectric.com/dist"];
       s3deploy.destinationBucket := bucket;
       s3deploy.distribution := distribution;
       s3deploy.distributionPaths := ["/*"] |};;
  new "BucketName"
    (CfnOutput {| cdk.value := Attr bucket bucketName_attr;
                  cdk.description := "S3 Bucket Name";
                  cdk.exportName := None |});;
  new "DistributionId"
    (CfnOutput {| cdk.value := Attr distribution distributionId_attr;
                  cdk.description := "CloudFront Distribution ID";
                  cdk.exportName := None |});;
  new "DistributionDomainName"
    (CfnOutput {| cdk.value := Attr distribution distributionDomainName_attr;
                  cdk.description := "CloudFront Distribution Domain Name";
                  cdk.exportName := None |});;
  new "WebsiteUrl"
    (CfnOutput {| cdk.value := Lit (JStr ("https://" ++ toString (domainName props)));
                  cdk.description := "Website URL";
                  cdk.exportName := None |});;
  mret {| bucket := bucket; distribution := distribution |}.

End static_website_stack.

(** ** The entry point *)

(** A stack of the tree is an instance of one of the two classes, made
    from the properties the script passed to [new]. *)
Inductive StackClass : Type :=
  | DnsStack (props : dns_stack.DnsStackProps)
  | StaticWebsiteStack (props : static_website_stack.StaticWebsiteStackProps).

(** The construct tree under [new cdk.App()], and whether [synth] ran. *)
Record App : Type := {
  stacks : list (StackClass * Stack);
  synthesized : bool;
}.

Definition new_App : App := {| stacks := []; synthesized := false |}.

(** [new Error(message)] *)
Record Error : Type := { message : string }.

(** A script statement either throws, which ends the process, or completes;
    both leave the construct tree as it is at that point. *)
Definition Script (A : Type) : Type := App -> (Error + A) * App.

#[global] Instance Script_ret : MRet Script := fun A x app => (inr x, app).
#[global] Instance Script_bind : MBind Script :=
  fun A B f m app =>
    match m app with
    | (inl e, app') => (inl e, app')
    | (inr x, app') => f x app'
    end.

Definition throw {A : Type} (e : Error) : Script A := fun app => (inl e, app).

(** [for (const x of xs) body] *)
Fixpoint for_of {A : Type} (xs : list A) (body : A -> Script unit) : Script unit :=
  match xs with
  | [] => mret tt
  | x :: rest => body x;; for_of rest body
  end.

(** [new C(app, id, props)] for a stack class [C] with the given
    constructor body: the stack joins the tree, the object is returned. *)
Definition new_Stack {F : Type} (id : string) (cls : StackClass)
    (e : cdk.Environment) (body : StackM F) : Script F :=
  fun app =>
    let '(this, s) := body (super id e) in
    (inr this,
     {| stacks := stacks app ++ [(cls, s)]; synthesized := synthesized app |}).

Definition new_DnsStack (id : string) (props : dns_stack.DnsStackProps)
  : Script dns_stack.DnsStack :=
  new_Stack id (DnsStack props) (dns_stack.env props)
    (dns_stack.constructor props).

Definition new_StaticWebsiteStack (id : string)
    (props : static_website_stack.StaticWebsiteStackProps)
  : Script static_website_stack.StaticWebsiteStack :=
  new_Stack id (StaticWebsiteStack props) (static_website_stack.env props)
    (static_website_stack.constructor props).

(** [stack.addDependency(target)], the stacks named by their identifiers. *)
Definition addDependency (id target : string) : Script unit :=
  fun app =>
    (inr tt,
     {| stacks :=
          map (fun '(cls, s) =>
                 if String.eqb (stackName s) id
                 then (cls,
                       {| stackName := stackName s; env := env s;
                          children := children s;
                          dependencies := dependencies s ++ [target] |})
                 else (cls, s))
              (stacks app);
        synthesized := synthesized app |}).

(** [app.synth()]: hands the tree to the provisioning engine. *)
Definition synth : Script unit :=
  fun app => (inr tt, {| stacks := stacks app; synthesized := true |}).

(** The message of the validation error (lines 35-36). *)
Definition missing_message (field : string) : string :=
  ("Missing required configuration: " ++ field ++ ". ") ++
  ("Set via --context " ++ field ++ "=value or environment variable "
     ++ toUpperCase field).

(** Lines 32-39. *)
Definition validate (config : config) : Script unit :=
  for_of requiredFields (fun field =>
    if negb (truthy (config_lookup config field))
    then throw {| message := missing_message field |}
    else mret tt).

(** Lines 41-100. *)
Definition declare_stacks (config : config) : Script unit :=
  dnsStack ← new_DnsStack "DnsStack"
    {| dns_stack.env :=
         {| cdk.account := dnsAccount config; cdk.region := region config |};
       dns_stack.domainName := domainName config;
       dns_stack.trustedAccountIds :=
         [betaAccount config; gammaAccount config; prodAccount config] |};
  betaStack ← new_StaticWebsiteStack "BetaStaticWebsiteStack"
    {| static_website_stack.env :=
         {| cdk.account := betaAccount config; cdk.region := region config |};
       static_website_stack.domainName :=
         JStr ("beta." ++ toString (domainName config));
       static_website_stack.hostedZoneId :=
         Attr (dns_stack.hostedZone dnsStack) hostedZoneId_attr;
       static_website_stack.hostedZoneName := domainName config;
       static_website_stack.crossAccountRoleArn :=
         Attr (dns_stack.crossAccountRole dnsStack) roleArn_attr;
       static_website_stack.stageName := "beta" |};
  gammaStack ← new_StaticWebsiteStack "GammaStaticWebsiteStack"
    {| static_website_stack.env :=
         {| cdk.account := gammaAccount config; cdk.region := region config |};
       static_website_stack.domainName :=
         JStr ("gamma." ++ toString (domainName config));
       static_website_stack.hostedZoneId :=
         Attr (dns_stack.hostedZone dnsStack) hostedZoneId_attr;
       static_website_stack.hostedZoneName := domainName config;
       static_website_stack.crossAccountRoleArn :=
         Attr (dns_stack.crossAccountRole dnsStack) roleArn_attr;
       static_website_stack.stageName := "gamma" |};
  prodStack ← new_StaticWebsiteStack "ProdStaticWebsiteStack"
    {| static_website_stack.env :=
         {| cdk.account := prodAccount config; cdk.region := region config |};
       static_website_stack.domainName := domainName config;
       static_website_stack.hostedZoneId :=
         Attr (dns_stack.hostedZone dnsStack) hostedZoneId_attr;
       static_website_stack.hostedZoneName := domainName config;
       static_website_stack.crossAccountRoleArn :=
         Attr (dns_stack.crossAccountRole dnsStack) roleArn_attr;
       static_website_stack.stageName := "prod" |};
  addDependency "BetaStaticWebsiteStack" "DnsStack";;
  addDependency "GammaStaticWebsiteStack" "DnsStack";;
  addDependency "ProdStaticWebsiteStack" "DnsStack";;
  synth.

(** The whole script, run from [new cdk.App()]. *)
Definition script (ctx : context) (env : environment) : Script unit :=
  let config := read_config ctx env in
  validate config;;
  declare_stacks config.

Definition main (ctx : context) (env : environment) : (Error + unit) * App :=
  script ctx env new_App.

(** ** Vocabulary of the properties *)

(** A required field is absent when it is falsy in the context and in
    the environment variable the configuration object reads for it. *)
Definition absent (ctx : context) (env : environment) (field : string) : bool :=
  negb (truthy (tryGetContext ctx field)) &&
  negb (truthy (from_option (process_env env) JUndefined (env_var field))).

(** All five required fields of a configuration object are truthy. *)
Definition all_present (c : config) : Prop :=
  truthy (dnsAccount c) = true /\
  truthy (betaAccount c) = true /\
  truthy (gammaAccount c) = true /\
  truthy (prodAccount c) = true /\
  truthy (domainName c) = true.

(** The stack of the tree with a given name, and the construct a
    reference points to. *)
Definition lookup_stack (app : App) (name : string) : option Stack :=
  snd <$> List.find (fun '(_, s) => String.eqb (stackName s) name) (stacks app).

Definition lookup_construct (app : App) (r : constructRef) : option construct :=
  s ← lookup_stack app (ref_stack r);
  lookup_child (ref_id r) (children s).

(** The static website stacks of the tree, each with the properties it
    was made from. *)
Definition static_stacks (app : App)
  : list (static_website_stack.StaticWebsiteStackProps * Stack) :=
  omap (fun '(cls, s) =>
          match cls with
          | StaticWebsiteStack props => Some (props, s)
          | DnsStack _ => None
          end)
       (stacks app).

Definition dns_stacks (app : App) : list (dns_stack.DnsStackProps * Stack) :=
  omap (fun '(cls, s) =>
          match cls with
          | DnsStack props => Some (props, s)
          | StaticWebsiteStack _ => None
          end)
       (stacks app).

(** The kinds of cloud resource a construct of the source declares.  An
    imported hosted zone refers to a zone of another stack and an output
    publishes a value: neither declares a resource. *)
Inductive resourceKind : Type :=
  | HostedZoneKind
  | RoleKind
  | BucketKind
  | DistributionKind
  | CertificateKind
  | AliasRecordKind
  | OriginAccessIdentityKind
  | BucketDeploymentKind.

#[global] Instance resourceKind_eq_dec : EqDecision resourceKind.
Proof. solve_decision. Defined.

Definition kind_of (c : construct) : option resourceKind :=
  match c with
  | PublicHostedZone _ _ => Some HostedZoneKind
  | Role _ _ => Some RoleKind
  | Bucket _ _ => Some BucketKind
  | ImportedHostedZone _ => None
  | Certificate _ => Some CertificateKind
  | OriginAccessIdentity _ => Some OriginAccessIdentityKind
  | Distribution _ => Some DistributionKind
  | ARecord _ => Some AliasRecordKind
  | BucketDeployment _ => Some BucketDeploymentKind
  | CfnOutput _ => None
  end.

Definition stack_kinds (s : Stack) : list resourceKind :=
  omap (fun '(_, c) => kind_of c) (children s).

Definition declared_kinds (app : App) : list resourceKind :=
  flat_map (fun '(_, s) => stack_kinds s) (stacks app).

(** The resource kinds the specification lists: hosted zone, cross-account
    role, bucket, distribution, certificate, alias record. *)
Definition spec_kinds : list resourceKind :=
  [HostedZoneKind; RoleKind; BucketKind; DistributionKind; CertificateKind;
   AliasRecordKind].

(** The outputs of a stack, in declaration order: identifier and value. *)
Definition outputs (s : Stack) : list (string * value) :=
  omap (fun '(id, c) =>
          match c with
          | CfnOutput props => Some (id, cdk.value props)
          | _ => None
          end)
       (children s).

(** The account identifiers whose principals a principal includes. *)
Fixpoint principal_accounts (p : iam.Principal) : list jsval :=
  match p with
  | iam.AccountPrincipal accountId => [accountId]
  | iam.CompositePrincipal principals => flat_map principal_accounts principals
  end.

(** A sample invocation: the domain from [--context], the accounts from
    the environment. *)
Definition sample_context : context :=
  {[ "domainName" := JStr "example.com" ]}.

Definition sample_environment : environment :=
  {[ "DNS_ACCOUNT_ID" := "111111111111";
     "BETA_ACCOUNT_ID" := "222222222222";
     "GAMMA_ACCOUNT_ID" := "333333333333";
     "PROD_ACCOUNT_ID" := "444444444444" ]}.

(** The first required field, in the order of [requiredFields], whose
    value in the configuration object is falsy. *)
Definition first_missing (c : config) : option string :=
  List.find (fun field => negb (truthy (config_lookup c field))) requiredFields.

(** The site bucket of a stack is closed to the public and served over
    HTTPS only: every bucket of the stack has public read access off and
    blocks all public access; it grants read to the stack's origin access
    identity and to the deployment that fills it, in that order, and to
    nothing else; every distribution redirects viewers to HTTPS and serves
    from the bucket through that identity; and the stack does hold such an
    identity, deployment, bucket and distribution. *)
Definition guarded_site (s : Stack) : Prop :=
  let oai := {| ref_stack := stackName s; ref_id := "OAI" |} in
  let bucket := {| ref_stack := stackName s; ref_id := "SiteBucket" |} in
  let deployment := {| ref_stack := stackName s; ref_id := "WebsiteDeployment" |} in
  (exists props,
      lookup_child "OAI" (children s) = Some (OriginAccessIdentity props)) /\
  (exists props,
      lookup_child "WebsiteDeployment" (children s) = Some (BucketDeployment props) /\
      s3deploy.destinationBucket props = bucket) /\
  (exists props grantees,
      lookup_child "SiteBucket" (children s) = Some (Bucket props grantees)) /\
  (forall id props grantees,
      In (id, Bucket props grantees) (children s) ->
      s3.publicReadAccess props = false /\
      s3.blockPublicAccess props = s3.BLOCK_ALL /\
      grantees = [oai; deployment]) /\
  (exists props,
      lookup_child "Distribution" (children s) = Some (Distribution props)) /\
  (forall id props,
      In (id, Distribution props) (children s) ->
      cf.viewerProtocolPolicy (cf.defaultBehavior props) = cf.REDIRECT_TO_HTTPS /\
      cf.origin (cf.defaultBehavior props) =
        origins.S3Origin bucket {| origins.originAccessIdentity := oai |}).

(** What the source instantiates in a stack, in order: the identifier of
    each construct with the kind of resource it declares, if any. *)
Definition stack_inventory (s : Stack) : list (string * option resourceKind) :=
  map (fun '(id, c) => (id, kind_of c)) (children s).

Definition dns_inventory : list (string * option resourceKind) :=
  [("RootHostedZone", Some HostedZoneKind);
   ("CrossAccountDnsRole", Some RoleKind);
   ("HostedZoneId", None);
   ("HostedZoneName", None);
   ("CrossAccountRoleArn", None);
   ("NameServers", None)].

Definition site_inventory : list (string * option resourceKind) :=
  [("SiteBucket", Some BucketKind);
   ("HostedZone", None);
   ("Certificate", Some CertificateKind);
   ("OAI", Some OriginAccessIdentityKind);
   ("Distribution", Some DistributionKind);
   ("AliasRecord", Some AliasRecordKind);
   ("WebsiteDeployment", Some BucketDeploymentKind);
   ("BucketName", None);
   ("DistributionId", None);
   ("DistributionDomainName", None);
   ("WebsiteUrl", None)].

(** The hosted zone of a stack is retained: the stack holds a hosted zone
    and every one it holds has had [RETAIN_ON_UPDATE_OR_DELETE] applied. *)
Definition zone_retained (s : Stack) : Prop :=
  (exists props removal,
      lookup_child "RootHostedZone" (children s) =
        Some (PublicHostedZone props removal)) /\
  (forall id props removal,
      In (id, PublicHostedZone props removal) (children s) ->
      removal = Some RETAIN_ON_UPDATE_OR_DELETE).

(** The site bucket of a stack goes with the stack: the stack holds a
    bucket and every one it holds has removal policy [DESTROY] and deletes
    its objects automatically. *)
Definition bucket_destroyed (s : Stack) : Prop :=
  (exists props grantees,
      lookup_child "SiteBucket" (children s) = Some (Bucket props grantees)) /\
  (forall id props grantees,
      In (id, Bucket props grantees) (children s) ->
      s3.removalPolicy props = DESTROY /\ s3.autoDeleteObjects props = true).

(** A stack serves a domain: its distribution answers to that name only,
    and its certificate and its alias record are for that name. *)
Definition serves (s : Stack) (d : jsval) : Prop :=
  (exists props,
      lookup_child "Distribution" (children s) = Some (Distribution props) /\
      cf.domainNames props = [d]) /\
  (exists props,
      lookup_child "Certificate" (children s) = Some (Certificate props) /\
      acm.domainName props = d) /\
  (exists props,
      lookup_child "AliasRecord" (children s) = Some (ARecord props) /\
      route53.recordName props = d).

(** The [WebsiteUrl] output of a stack is the given string and nothing
    else. *)
Definition website_url (s : Stack) (url : string) : Prop :=
  forall v, In ("WebsiteUrl", v) (outputs s) <-> v = Lit (JStr url).

(** ** Vocabulary of the further properties *)

(** The context keys and the environment variables the configuration
    object reads (entry point, lines 12-21). *)
Definition context_keys : list string :=
  ["dnsAccount"; "betaAccount"; "gammaAccount"; "prodAccount"; "domainName";
   "region"].

Definition environment_variables : list string :=
  ["DNS_ACCOUNT_ID"; "BETA_ACCOUNT_ID"; "GAMMA_ACCOUNT_ID"; "PROD_ACCOUNT_ID";
   "DOMAIN_NAME"].

(** [s.endsWith(suffix)] *)
Fixpoint endsWith (s suffix : string) : bool :=
  String.eqb s suffix ||
  match s with
  | EmptyString => false
  | String _ rest => endsWith rest suffix
  end.

(** The constructs a property value refers to. *)
Fixpoint value_refs (v : value) : list constructRef :=
  match v with
  | Lit _ => []
  | Attr r _ => [r]
  | ArrayLit vs => flat_map value_refs vs
  | FnJoin _ listOfValues => value_refs listOfValues
  end.

(** The constructs a construct refers to, through its properties and
    through what was added to it after construction. *)
Definition construct_refs (c : construct) : list constructRef :=
  match c with
  | PublicHostedZone _ _ => []
  | Role _ policy =>
      flat_map (fun st => flat_map value_refs (iam.resources st)) policy
  | Bucket _ grantees => grantees
  | ImportedHostedZone attrs => value_refs (route53.hostedZoneId attrs)
  | Certificate props =>
      match acm.validation props with acm.fromDns zone => [zone] end
  | OriginAccessIdentity _ => []
  | Distribution props =>
      cf.certificate props ::
      match cf.origin (cf.defaultBehavior props) with
      | origins.S3Origin bucket originProps =>
          [bucket; origins.originAccessIdentity originProps]
      end
  | ARecord props =>
      route53.zone props ::
      match route53.target props with
      | route53.fromAlias (route53.CloudFrontTarget distribution) => [distribution]
      end
  | BucketDeployment props =>
      [s3deploy.destinationBucket props; s3deploy.distribution props]
  | CfnOutput props => value_refs (cdk.value props)
  end.

(** The constructs a stack refers to: from the properties it was made
    from and from the constructs it holds. *)
Definition class_refs (cls : StackClass) : list constructRef :=
  match cls with
  | DnsStack _ => []
  | StaticWebsiteStack props =>
      (value_refs (static_website_stack.hostedZoneId props) ++
       value_refs (static_website_stack.crossAccountRoleArn props))%list
  end.

Definition stack_refs (s : Stack) : list constructRef :=
  flat_map (fun '(_, c) => construct_refs c) (children s).

(** The export names of the outputs of a stack. *)
Definition export_names (s : Stack) : list string :=
  omap (fun '(_, c) =>
          match c with
          | CfnOutput props => cdk.exportName props
          | _ => None
          end)
       (children s).

(** The physical names of the buckets of a stack, and of the tree. *)
Definition bucket_names (s : Stack) : list string :=
  omap (fun '(_, c) =>
          match c with
          | Bucket props _ => Some (s3.bucketName props)
          | _ => None
          end)
       (children s).

Definition app_bucket_names (app : App) : list string :=
  flat_map (fun '(_, s) => bucket_names s) (stacks app).

(** The policy statements of the roles of a stack. *)
Definition role_policies (s : Stack) : list iam.PolicyStatement :=
  flat_map (fun '(_, c) =>
              match c with
              | Role _ policy => policy
              | _ => []
              end)
           (children s).

(** The policy of the cross-account role is confined to DNS: every
    statement allows, every action is a [route53:] action, the statement
    that changes record sets is limited to one hosted zone and to change
    batches, and a statement over every resource only reads. *)
Definition dns_only_policy (zone : constructRef) (policy : list iam.PolicyStatement)
  : Prop :=
  Forall (fun st =>
            iam.effect st = iam.ALLOW /\
            Forall (fun action => String.prefix "route53:" action = true)
                   (iam.actions st))
         policy /\
  (forall st,
      In st policy ->
      In "route53:ChangeResourceRecordSets" (iam.actions st) ->
      iam.resources st =
        [Attr zone hostedZoneArn_attr; Lit (JStr "arn:aws:route53:::change/*")]) /\
  (forall st,
      In st policy ->
      In (Lit (JStr "*")) (iam.resources st) ->
      forall action,
        In action (iam.actions st) ->
        action = "route53:GetHostedZone" \/ action = "route53:ListHostedZones").

(** The constructs of a static website stack fit together: the public
    fields are the site bucket and the distribution; the distribution
    serves from that bucket under the certificate, whose domain is the one
    name it answers to and the name of the alias record; the record points
    at the distribution, in the zone that validates the certificate; the
    deployment fills that bucket and invalidates all paths of that
    distribution; the root object is the bucket's index document; error
    responses keep their status and serve [/error.html]. *)
Definition coherent_site (this : static_website_stack.StaticWebsiteStack)
    (s : Stack) : Prop :=
  exists bucketProps grantees certProps distProps recordProps deployProps originProps,
    static_website_stack.bucket this =
      {| ref_stack := stackName s; ref_id := "SiteBucket" |} /\
    static_website_stack.distribution this =
      {| ref_stack := stackName s; ref_id := "Distribution" |} /\
    lookup_child "SiteBucket" (children s) = Some (Bucket bucketProps grantees) /\
    lookup_child "Certificate" (children s) = Some (Certificate certProps) /\
    lookup_child "Distribution" (children s) = Some (Distribution distProps) /\
    lookup_child "AliasRecord" (children s) = Some (ARecord recordProps) /\
    lookup_child "WebsiteDeployment" (children s) =
      Some (BucketDeployment deployProps) /\
    cf.origin (cf.defaultBehavior distProps) =
      origins.S3Origin (static_website_stack.bucket this) originProps /\
    cf.certificate distProps =
      {| ref_stack := stackName s; ref_id := "Certificate" |} /\
    cf.domainNames distProps = [acm.domainName certProps] /\
    route53.recordName recordProps = acm.domainName certProps /\
    route53.target recordProps =
      route53.fromAlias
        (route53.CloudFrontTarget (static_website_stack.distribution this)) /\
    acm.validation certProps = acm.fromDns (route53.zone recordProps) /\
    s3deploy.destinationBucket deployProps = static_website_stack.bucket this /\
    s3deploy.distribution deployProps = static_website_stack.distribution this /\
    s3deploy.distributionPaths deployProps = ["/*"] /\
    cf.defaultRootObject distProps = s3.websiteIndexDocument bucketProps /\
    Forall (fun response =>
              cf.responseHttpStatus response = cf.httpStatus response /\
              cf.responsePagePath response = "/error.html")
           (cf.errorResponses distProps).

(** * Properties *)

(** ** Values and the configuration object *)

Lemma truthy_js_or (a b : jsval) : truthy (js_or a b) = truthy a || truthy b.
Proof. unfold js_or. destruct (truthy a) eqn:Ha; [exact Ha | reflexivity]. Qed.

Lemma js_or_truthy (a b : jsval) : truthy a = true -> js_or a b = a.
Proof. unfold js_or. intros ->. reflexivity. Qed.

Lemma js_or_falsy (a b : jsval) : truthy a = false -> js_or a b = b.
Proof. unfold js_or. intros ->. reflexivity. Qed.

(** Membership in [requiredFields], by cases. *)
Lemma requiredFields_cases (field : string) :
  In field requiredFields ->
  field = "dnsAccount" \/ field = "betaAccount" \/ field = "gammaAccount" \/
  field = "prodAccount" \/ field = "domainName".
Proof.
  unfold requiredFields. simpl. intros H.
  repeat (destruct H as [H | H]; [symmetry in H; tauto |]). contradiction.
Qed.

Ltac required_field_cases H :=
  apply requiredFields_cases in H;
  destruct H as [-> | [-> | [-> | [-> | ->]]]].

(** Every required field has an environment variable, and the value the
    configuration object holds for it is the context value or else the
    value of that variable. *)
Lemma config_lookup_required (ctx : context) (env : environment) (field : string) :
  In field requiredFields ->
  exists name,
    env_var field = Some name /\
    config_lookup (read_config ctx env) field =
      js_or (tryGetContext ctx field) (process_env env name).
Proof.
  intros H. required_field_cases H; eexists; split; reflexivity.
Qed.

Lemma absent_falsy (ctx : context) (env : environment) (field : string) :
  In field requiredFields ->
  absent ctx env field = negb (truthy (config_lookup (read_config ctx env) field)).
Proof.
  intros H. destruct (config_lookup_required ctx env field H) as (name & Hv & ->).
  unfold absent. rewrite Hv, truthy_js_or, negb_orb. reflexivity.
Qed.

(** ** The validation loop *)

(** A loop whose body only tests and throws stops at the first element
    that fails the test, and leaves the tree alone. *)
Lemma for_of_check {A : Type} (bad : A -> bool) (err : A -> Error)
    (xs : list A) (app : App) :
  for_of xs (fun x => if bad x then throw (err x) else mret tt) app =
  match List.find bad xs with
  | Some x => (inl (err x), app)
  | None => (inr tt, app)
  end.
Proof.
  induction xs as [| x xs IH]; simpl; [reflexivity |].
  unfold mbind, Script_bind. destruct (bad x); simpl; [reflexivity | exact IH].
Qed.

Lemma validate_first_missing (c : config) (app : App) :
  validate c app =
  match first_missing c with
  | Some field => (inl {| message := missing_message field |}, app)
  | None => (inr tt, app)
  end.
Proof.
  unfold validate, first_missing.
  apply (for_of_check (fun field => negb (truthy (config_lookup c field)))
           (fun field => {| message := missing_message field |})).
Qed.

Lemma first_missing_None (c : config) : first_missing c = None <-> all_present c.
Proof.
  unfold first_missing, all_present, requiredFields, config_lookup. simpl.
  destruct (truthy (dnsAccount c)), (truthy (betaAccount c)),
    (truthy (gammaAccount c)), (truthy (prodAccount c)),
    (truthy (domainName c)); simpl; split; intros H;
    solve [ reflexivity | discriminate | tauto | intuition discriminate ].
Qed.

(** Where [find] stops: everything before the element passes the test. *)
Lemma find_split {A : Type} (p : A -> bool) (xs : list A) (x : A) :
  List.find p xs = Some x ->
  exists pre post,
    xs = (pre ++ x :: post)%list /\ Forall (fun y => p y = false) pre /\ p x = true.
Proof.
  induction xs as [| y ys IH]; simpl; [discriminate |].
  destruct (p y) eqn:Hy.
  - intros [= ->]. exists [], ys. repeat split; [constructor | exact Hy].
  - intros H. destruct (IH H) as (pre & post & -> & Hpre & Hx).
    exists (y :: pre), post. repeat split; [constructor; assumption | exact Hx].
Qed.

Lemma find_is_Some {A : Type} (p : A -> bool) (xs : list A) (x : A) :
  In x xs -> p x = true -> exists y, List.find p xs = Some y.
Proof.
  intros Hin Hp. destruct (List.find p xs) as [y |] eqn:Hf; [eauto |].
  rewrite (find_none p xs Hf x Hin) in Hp. discriminate.
Qed.

(** Two elements that both fail the test after a passing prefix are the
    same position of the list. *)
Lemma first_failure_unique {A : Type} (p : A -> bool)
    (pre pre' post post' : list A) (x y : A) :
  (pre ++ x :: post)%list = (pre' ++ y :: post')%list ->
  Forall (fun z => p z = false) pre -> Forall (fun z => p z = false) pre' ->
  p x = true -> p y = true -> x = y.
Proof.
  revert pre'. induction pre as [| a pre IH]; intros [| b pre']; simpl;
    intros Heq Hpre Hpre' Hx Hy.
  - congruence.
  - inversion Heq; subst. inversion Hpre'; subst. congruence.
  - inversion Heq; subst. inversion Hpre; subst. congruence.
  - inversion Heq; subst. inversion Hpre; inversion Hpre'; subst. eauto.
Qed.

Lemma includes_unfold (haystack needle : string) :
  includes haystack needle =
  String.prefix needle haystack ||
  match haystack with
  | EmptyString => false
  | String _ rest => includes rest needle
  end.
Proof. destruct haystack; reflexivity. Qed.

(** The field a message is about appears in the message. *)
Lemma includes_prefix (s t : string) : includes (s ++ t) s = true.
Proof.
  assert (H : String.prefix s (s ++ t) = true).
  { induction s as [| c s IH]; simpl; [destruct t; reflexivity |].
    destruct (ascii_dec c c); [exact IH | contradiction]. }
  rewrite includes_unfold, H. reflexivity.
Qed.

Lemma includes_append (a s t : string) : includes (a ++ s ++ t) s = true.
Proof.
  induction a as [| c a IH].
  - change (includes (s ++ t) s = true). apply includes_prefix.
  - change (includes (String c (a ++ s ++ t)) s = true).
    rewrite includes_unfold, IH. apply orb_true_r.
Qed.

Lemma append_assoc (a b c : string) : (a ++ b) ++ c = a ++ (b ++ c).
Proof.
  induction a as [| x a IH]; [reflexivity |].
  change (String x ((a ++ b) ++ c) = String x (a ++ b ++ c)).
  f_equal. exact IH.
Qed.

Lemma missing_message_names (field : string) :
  includes (missing_message field) field = true.
Proof.
  unfold missing_message.
  rewrite !append_assoc. apply includes_append.
Qed.

(** ** The script, end to end *)

Lemma main_throws (ctx : context) (env : environment) (field : string) :
  first_missing (read_config ctx env) = Some field ->
  main ctx env = (inl {| message := missing_message field |}, new_App).
Proof.
  intros H. unfold main, script, mbind, Script_bind.
  rewrite validate_first_missing, H. reflexivity.
Qed.

Lemma main_declares (ctx : context) (env : environment) :
  all_present (read_config ctx env) ->
  main ctx env = declare_stacks (read_config ctx env) new_App.
Proof.
  intros H. apply first_missing_None in H. unfold main, script, mbind, Script_bind.
  rewrite validate_first_missing, H. reflexivity.
Qed.

(** ** Validation of the configuration *)

(** C1, as stated, fails: with nothing configured, [domainName] is absent
    from the context and from [DOMAIN_NAME], yet the error the script
    throws is the one for [dnsAccount], and its message does not contain
    [domainName]. *)
Lemma C1_counterexample_error_names_first_absent_field :
  In "domainName" requiredFields /\
  absent ∅ ∅ "domainName" = true /\
  exists e : Error,
    main ∅ ∅ = (inl e, new_App) /\
    e = {| message := missing_message "dnsAccount" |} /\
    includes (message e) "domainName" = false.
Proof.
  split; [simpl; tauto |]. split; [reflexivity |].
  eexists. split; [reflexivity |]. split; vm_compute; reflexivity.
Qed.

(** C1 (amended): if a required field is absent from both the context and
    its environment variable, the script throws an [Error] while the tree
    holds no stack and [synth] has not run; the error names the first
    absent field in the order of [requiredFields], which is the given field
    whenever every required field before it is present. *)
Theorem C1_absent_field_throws_before_any_stack
    (ctx : context) (env : environment) (field : string) :
  In field requiredFields ->
  absent ctx env field = true ->
  exists first pre post,
    requiredFields = (pre ++ first :: post)%list /\
    Forall (fun g => absent ctx env g = false) pre /\
    absent ctx env first = true /\
    main ctx env = (inl {| message := missing_message first |}, new_App) /\
    includes (missing_message first) first = true /\
    stacks (snd (main ctx env)) = [] /\
    synthesized (snd (main ctx env)) = false /\
    (forall pre' post',
        requiredFields = (pre' ++ field :: post')%list ->
        Forall (fun g => absent ctx env g = false) pre' ->
        first = field).
Proof.
  intros Hin Habs.
  set (bad := fun g => negb (truthy (config_lookup (read_config ctx env) g))).
  assert (Hbad : forall g, In g requiredFields -> absent ctx env g = bad g).
  { intros g Hg. apply absent_falsy, Hg. }
  destruct (find_is_Some bad requiredFields field Hin) as [first Hfirst].
  { rewrite <- Hbad by exact Hin. exact Habs. }
  destruct (find_split bad requiredFields first Hfirst)
    as (pre & post & Hsplit & Hpre & Hbadfirst).
  assert (Hsub : forall l, (forall g, In g l -> In g requiredFields) ->
            Forall (fun g => bad g = false) l <->
            Forall (fun g => absent ctx env g = false) l).
  { intros l Hl. rewrite !List.Forall_forall.
    split; intros H g Hg; [rewrite Hbad | rewrite <- Hbad]; auto. }
  assert (Hpre_in : forall g, In g pre -> In g requiredFields).
  { intros g Hg. rewrite Hsplit. apply in_or_app. left. exact Hg. }
  assert (Hfirst_in : In first requiredFields).
  { rewrite Hsplit. apply in_or_app. right. left. reflexivity. }
  pose proof (main_throws ctx env first Hfirst) as Hmain.
  exists first, pre, post. rewrite Hmain.
  repeat split.
  - exact Hsplit.
  - apply Hsub; assumption.
  - rewrite Hbad by exact Hfirst_in. exact Hbadfirst.
  - apply missing_message_names.
  - intros pre' post' Hsplit' Hpre'.
    apply (first_failure_unique bad pre pre' post post').
    + rewrite <- Hsplit, <- Hsplit'. reflexivity.
    + exact Hpre.
    + apply Hsub; [| exact Hpre'].
      intros g Hg. rewrite Hsplit'. apply in_or_app. left. exact Hg.
    + exact Hbadfirst.
    + rewrite <- Hbad by exact Hin. exact Habs.
Qed.

(** With the domain configured and no account, [betaAccount] is absent
    and the script throws. *)
Lemma C1_witness_no_accounts :
  In "betaAccount" requiredFields /\
  absent sample_context ∅ "betaAccount" = true /\
  exists first,
    main sample_context ∅ = (inl {| message := missing_message first |}, new_App).
Proof.
  assert (Hin : In "betaAccount" requiredFields) by (simpl; tauto).
  assert (Habs : absent sample_context ∅ "betaAccount" = true) by reflexivity.
  split; [exact Hin |]. split; [exact Habs |].
  destruct (C1_absent_field_throws_before_any_stack
              sample_context ∅ "betaAccount" Hin Habs)
    as (first & _ & _ & _ & _ & _ & Hmain & _).
  exists first. exact Hmain.
Defined.

(** C2: the validation loop throws exactly when some required field of
    the configuration object is falsy; when all five are truthy it
    completes, whatever the values are. *)
Theorem C2_validate_throws_iff_some_field_absent (c : config) (app : App) :
  (validate c app = (inr tt, app) <-> all_present c) /\
  ((exists e app', validate c app = (inl e, app')) <->
   (exists field,
       In field requiredFields /\ truthy (config_lookup c field) = false)).
Proof.
  rewrite validate_first_missing, <- first_missing_None.
  unfold first_missing.
  destruct (List.find _ requiredFields) as [field |] eqn:Hfind.
  - split; [split; discriminate |]. split; [| eauto].
    intros _. exists field. apply find_some in Hfind as [Hin Hbad].
    split; [exact Hin |]. apply negb_true_iff. exact Hbad.
  - split; [tauto |]. split; [intros (e & app' & [=]) |].
    intros (field & Hin & Hbad).
    pose proof (find_none _ _ Hfind field Hin) as H. simpl in H.
    rewrite Hbad in H. discriminate.
Qed.

(** The sample configuration passes validation; the empty one does not. *)
Lemma C2_witness_sample_and_empty :
  validate (read_config sample_context sample_environment) new_App =
    (inr tt, new_App) /\
  exists e app', validate (read_config ∅ ∅) new_App = (inl e, app').
Proof.
  split.
  - apply (C2_validate_throws_iff_some_field_absent
             (read_config sample_context sample_environment) new_App).
    vm_compute. repeat split.
  - apply (C2_validate_throws_iff_some_field_absent (read_config ∅ ∅) new_App).
    exists "dnsAccount". split; [simpl; tauto | vm_compute; reflexivity].
Defined.

(** ** Sources of the configuration values *)

(** C7, as stated, fails for the region: no environment variable supplies
    it.  Whatever the variable, setting it to [eu-west-1] with an empty
    context leaves the region at [us-east-1]. *)
Lemma C7_counterexample_region_not_read_from_environment :
  ~ exists var : string,
      forall (ctx : context) (env : environment),
        truthy (tryGetContext ctx "region") = false ->
        truthy (process_env env var) = true ->
        region (read_config ctx env) = process_env env var.
Proof.
  intros [var H].
  assert (Hvar : process_env {[ var := "eu-west-1" ]} var = JStr "eu-west-1").
  { unfold process_env, environment. rewrite lookup_singleton_eq. reflexivity. }
  specialize (H ∅ {[ var := "eu-west-1" ]}).
  rewrite Hvar in H. specialize (H eq_refl eq_refl). discriminate H.
Qed.

(** C7 (amended): each of the four account identifiers and the domain
    name is the context value when that is truthy and the value of its
    environment variable otherwise; the region is the context value when
    that is truthy and ["us-east-1"] otherwise, whatever the environment
    holds. *)
Theorem C7_context_precedes_environment (ctx : context) (env : environment) :
  (forall field,
      In field requiredFields ->
      exists var,
        env_var field = Some var /\
        (truthy (tryGetContext ctx field) = true ->
         config_lookup (read_config ctx env) field = tryGetContext ctx field) /\
        (truthy (tryGetContext ctx field) = false ->
         config_lookup (read_config ctx env) field = process_env env var)) /\
  (truthy (tryGetContext ctx "region") = true ->
   region (read_config ctx env) = tryGetContext ctx "region") /\
  (truthy (tryGetContext ctx "region") = false ->
   region (read_config ctx env) = JStr "us-east-1") /\
  (forall env' : environment,
      region (read_config ctx env') = region (read_config ctx env)).
Proof.
  split; [| split; [| split]].
  - intros field Hin.
    destruct (config_lookup_required ctx env field Hin) as (var & Hvar & ->).
    exists var. split; [exact Hvar |].
    split; [apply js_or_truthy | apply js_or_falsy].
  - apply js_or_truthy.
  - apply js_or_falsy.
  - reflexivity.
Qed.

(** On the sample invocation the domain comes from the context, the
    production account from [PROD_ACCOUNT_ID], and the region is the
    default. *)
Lemma C7_witness_sample :
  config_lookup (read_config sample_context sample_environment) "domainName" =
    JStr "example.com" /\
  config_lookup (read_config sample_context sample_environment) "prodAccount" =
    JStr "444444444444" /\
  region (read_config sample_context sample_environment) = JStr "us-east-1".
Proof.
  destruct (C7_context_precedes_environment sample_context sample_environment)
    as (Hrequired & _ & Hdefault & _).
  split; [| split].
  - destruct (Hrequired "domainName") as (var & _ & Hctx & _); [simpl; tauto |].
    rewrite Hctx; vm_compute; reflexivity.
  - destruct (Hrequired "prodAccount") as (var & Hvar & _ & Henv); [simpl; tauto |].
    rewrite Henv; [| vm_compute; reflexivity].
    injection Hvar as <-. vm_compute. reflexivity.
  - apply Hdefault. vm_compute. reflexivity.
Defined.

(** ** The declared tree *)

(** Evaluation of the script on a symbolic configuration: everything but
    string coercion and concatenation is computed. *)
Ltac run_script :=
  cbv -[toString String.append
        dnsAccount betaAccount gammaAccount prodAccount domainName region].

(** Once validation has passed the script runs to completion. *)
Lemma declare_stacks_completes (c : config) :
  declare_stacks c new_App = (inr tt, snd (declare_stacks c new_App)).
Proof. run_script. reflexivity. Qed.

Lemma main_completes (ctx : context) (env : environment) :
  all_present (read_config ctx env) ->
  main ctx env =
    (inr tt, snd (declare_stacks (read_config ctx env) new_App)).
Proof.
  intros H. rewrite (main_declares ctx env H). apply declare_stacks_completes.
Qed.

Lemma sample_all_present :
  all_present (read_config sample_context sample_environment).
Proof. vm_compute. repeat split. Qed.

(** Reduces a goal about [main] on a valid configuration to a goal about
    the tree [declare_stacks] builds from an arbitrary configuration. *)
Ltac on_declared_tree H c :=
  match type of H with
  | all_present (read_config ?ctx ?env) =>
      rewrite (main_completes ctx env H); clear H;
      generalize (read_config ctx env); intros c;
      exists (snd (declare_stacks c new_App));
      split; [reflexivity |]
  end.

(** ** Resource kinds *)

(** C3, as stated, fails: on the sample invocation the tree also declares
    a bucket deployment and an origin access identity, which are not among
    the kinds listed. *)
Lemma C3_counterexample_more_kinds_than_listed :
  exists app,
    main sample_context sample_environment = (inr tt, app) /\
    In BucketDeploymentKind (declared_kinds app) /\
    ~ In BucketDeploymentKind spec_kinds /\
    In OriginAccessIdentityKind (declared_kinds app) /\
    ~ In OriginAccessIdentityKind spec_kinds.
Proof.
  exists (snd (main sample_context sample_environment)).
  split; [vm_compute; reflexivity |].
  split; [| split; [| split]].
  - vm_compute. tauto.
  - simpl. intuition discriminate.
  - vm_compute. tauto.
  - simpl. intuition discriminate.
Qed.

(** C3 (amended): on a valid configuration the tree is the DNS stack and
    the three static website stacks, and what the source instantiates in
    them is this: in the DNS stack a hosted zone and a role, then four
    outputs; in each static website stack a bucket, an imported reference
    to the hosted zone, a certificate, an origin access identity, a
    distribution, an alias record and a bucket deployment, then four
    outputs.  So every kind listed is declared, and two kinds that are not
    listed are declared besides: the origin access identity and the bucket
    deployment. *)
Theorem C3_declared_resource_kinds (ctx : context) (env : environment) :
  all_present (read_config ctx env) ->
  exists app,
    main ctx env = (inr tt, app) /\
    map (fun '(_, s) => (stackName s, stack_inventory s)) (stacks app) =
      [("DnsStack", dns_inventory);
       ("BetaStaticWebsiteStack", site_inventory);
       ("GammaStaticWebsiteStack", site_inventory);
       ("ProdStaticWebsiteStack", site_inventory)] /\
    (forall k, In k spec_kinds -> In k (declared_kinds app)) /\
    In OriginAccessIdentityKind (declared_kinds app) /\
    In BucketDeploymentKind (declared_kinds app) /\
    ~ In OriginAccessIdentityKind spec_kinds /\
    ~ In BucketDeploymentKind spec_kinds.
Proof.
  intros H. on_declared_tree H c.
  split; [run_script; reflexivity |].
  split; [| split; [| split; [| split]]].
  - intros k Hk. run_script.
    simpl in Hk. repeat (destruct Hk as [<- | Hk]; [tauto |]). contradiction.
  - run_script. tauto.
  - run_script. tauto.
  - simpl. intuition discriminate.
  - simpl. intuition discriminate.
Qed.

(** The sample invocation is valid and its tree starts with the DNS
    stack, holding a hosted zone and a role. *)
Lemma C3_witness_sample :
  all_present (read_config sample_context sample_environment) /\
  exists app,
    main sample_context sample_environment = (inr tt, app) /\
    head (map (fun '(_, s) => (stackName s, stack_kinds s)) (stacks app)) =
      Some ("DnsStack", [HostedZoneKind; RoleKind]).
Proof.
  split; [exact sample_all_present |].
  destruct (C3_declared_resource_kinds _ _ sample_all_present)
    as (app & Hmain & Hinventory & _).
  exists app. split; [exact Hmain |].
  assert (Hkinds :
    map (fun '(_, s) => (stackName s, stack_kinds s)) (stacks app) =
    map (fun '(name, inventory) => (name, omap snd inventory))
        (map (fun '(_, s) => (stackName s, stack_inventory s)) (stacks app))).
  { clear. induction (stacks app) as [| [cls s] l IH]; [reflexivity |].
    cbn [map]. rewrite <- IH. f_equal. f_equal.
    unfold stack_kinds, stack_inventory.
    induction (children s) as [| [id c] cs IHc]; [reflexivity |].
    cbn [map omap list_omap]. rewrite <- IHc.
    destruct (kind_of c); reflexivity. }
  rewrite Hkinds, Hinventory. reflexivity.
Defined.

(** ** Wiring between the stacks *)

(** C4: on a valid configuration the tree is one DNS stack, holding the
    hosted zone and the cross-account role, and three static website
    stacks; each static website stack is given the [hostedZoneId] of that
    zone and the [roleArn] of that role, imports the zone under that
    identifier, and lists the DNS stack among its dependencies. *)
Theorem C4_static_stacks_wired_to_dns_stack (ctx : context) (env : environment) :
  all_present (read_config ctx env) ->
  exists app dnsProps dns zone role,
    main ctx env = (inr tt, app) /\
    synthesized app = true /\
    length (stacks app) = 4%nat /\
    dns_stacks app = [(dnsProps, dns)] /\
    length (static_stacks app) = 3%nat /\
    ref_stack zone = stackName dns /\
    ref_stack role = stackName dns /\
    (exists props removal,
        lookup_construct app zone = Some (PublicHostedZone props removal)) /\
    (exists props policy,
        lookup_construct app role = Some (Role props policy)) /\
    Forall (fun '(props, s) =>
              static_website_stack.hostedZoneId props = Attr zone hostedZoneId_attr /\
              static_website_stack.crossAccountRoleArn props = Attr role roleArn_attr /\
              lookup_child "HostedZone" (children s) =
                Some (ImportedHostedZone
                        {| route53.hostedZoneId := Attr zone hostedZoneId_attr;
                           route53.zoneName' :=
                             static_website_stack.hostedZoneName props |}) /\
              In (stackName dns) (dependencies s))
      (static_stacks app).
Proof.
  intros H. rewrite (main_completes ctx env H). clear H.
  generalize (read_config ctx env). intros c.
  exists (snd (declare_stacks c new_App)).
  eexists _, _.
  exists {| ref_stack := "DnsStack"; ref_id := "RootHostedZone" |}.
  exists {| ref_stack := "DnsStack"; ref_id := "CrossAccountDnsRole" |}.
  split; [reflexivity |].
  split; [reflexivity |].
  split; [reflexivity |].
  split; [run_script; reflexivity |].
  split; [reflexivity |].
  split; [reflexivity |].
  split; [reflexivity |].
  split; [run_script; eauto |].
  split; [run_script; eauto |].
  run_script.
  repeat (constructor; [repeat split; tauto |]). constructor.
Qed.

(** The sample invocation is valid and its tree has three static website
    stacks. *)
Lemma C4_witness_sample :
  all_present (read_config sample_context sample_environment) /\
  exists app,
    main sample_context sample_environment = (inr tt, app) /\
    length (static_stacks app) = 3%nat.
Proof.
  split; [exact sample_all_present |].
  destruct (C4_static_stacks_wired_to_dns_stack _ _ sample_all_present)
    as (app & _ & _ & _ & _ & Hmain & _ & _ & _ & Hstatic & _).
  exists app. split; [exact Hmain | exact Hstatic].
Defined.

(** ** Outputs *)

(** C5: on a valid configuration the tree holds one DNS stack and three
    static website stacks and nothing else.  The DNS stack publishes
    exactly the outputs [HostedZoneId], [HostedZoneName],
    [CrossAccountRoleArn] and [NameServers]: the identifier and the name
    servers of its zone, the name the zone was declared with, and the ARN
    of its role.  Each static website stack publishes exactly [BucketName],
    [DistributionId], [DistributionDomainName] and [WebsiteUrl]: the
    attributes of its bucket and its distribution, and ["https://"]
    followed by its domain. *)
Theorem C5_outputs_of_the_stacks (ctx : context) (env : environment) :
  all_present (read_config ctx env) ->
  exists app,
    main ctx env = (inr tt, app) /\
    length (dns_stacks app) = 1%nat /\
    length (static_stacks app) = 3%nat /\
    length (stacks app) = (length (dns_stacks app) + length (static_stacks app))%nat /\
    Forall (fun '(props, s) =>
              let zone := {| ref_stack := stackName s; ref_id := "RootHostedZone" |} in
              let role := {| ref_stack := stackName s; ref_id := "CrossAccountDnsRole" |} in
              (lookup_child (ref_id zone) (children s) ≫= kind_of) = Some HostedZoneKind /\
              (lookup_child (ref_id role) (children s) ≫= kind_of) = Some RoleKind /\
              dns_stack.domainName props = domainName (read_config ctx env) /\
              outputs s =
                [("HostedZoneId", Attr zone hostedZoneId_attr);
                 ("HostedZoneName", Lit (dns_stack.domainName props));
                 ("CrossAccountRoleArn", Attr role roleArn_attr);
                 ("NameServers", FnJoin ", " (Attr zone hostedZoneNameServers_attr))])
      (dns_stacks app) /\
    Forall (fun '(props, s) =>
              let bucket := {| ref_stack := stackName s; ref_id := "SiteBucket" |} in
              let distribution := {| ref_stack := stackName s; ref_id := "Distribution" |} in
              (lookup_child (ref_id bucket) (children s) ≫= kind_of) = Some BucketKind /\
              (lookup_child (ref_id distribution) (children s) ≫= kind_of) =
                Some DistributionKind /\
              outputs s =
                [("BucketName", Attr bucket bucketName_attr);
                 ("DistributionId", Attr distribution distributionId_attr);
                 ("DistributionDomainName", Attr distribution distributionDomainName_attr);
                 ("WebsiteUrl",
                  Lit (JStr ("https://" ++
                             toString (static_website_stack.domainName props))))])
      (static_stacks app).
Proof.
  intros H. on_declared_tree H c.
  do 3 (split; [reflexivity |]).
  split; run_script; repeat (constructor; [repeat split |]); constructor.
Qed.

(** On the sample invocation the outputs of the DNS stack are the four
    named, [HostedZoneName] with the value [example.com]. *)
Lemma C5_witness_sample :
  all_present (read_config sample_context sample_environment) /\
  exists app,
    main sample_context sample_environment = (inr tt, app) /\
    map (fun '(_, s) => outputs s) (dns_stacks app) =
      [[("HostedZoneId",
         Attr {| ref_stack := "DnsStack"; ref_id := "RootHostedZone" |}
              hostedZoneId_attr);
        ("HostedZoneName", Lit (JStr "example.com"));
        ("CrossAccountRoleArn",
         Attr {| ref_stack := "DnsStack"; ref_id := "CrossAccountDnsRole" |}
              roleArn_attr);
        ("NameServers",
         FnJoin ", "
           (Attr {| ref_stack := "DnsStack"; ref_id := "RootHostedZone" |}
                 hostedZoneNameServers_attr))]].
Proof.
  split; [exact sample_all_present |].
  destruct (C5_outputs_of_the_stacks _ _ sample_all_present)
    as (app & Hmain & _).
  exists app. split; [exact Hmain |].
  assert (Happ : app = snd (main sample_context sample_environment))
    by (rewrite Hmain; reflexivity).
  rewrite Happ. vm_compute. reflexivity.
Defined.

(** ** The cross-account role *)

(** The composite principal built from a list of account identifiers
    includes exactly those accounts. *)
Lemma principal_accounts_composite (accountIds : list jsval) :
  principal_accounts
    (iam.CompositePrincipal
       (map (fun accountId => iam.AccountPrincipal accountId) accountIds)) =
  accountIds.
Proof.
  simpl. induction accountIds as [| a l IH]; simpl; [reflexivity |].
  rewrite IH. reflexivity.
Qed.

(** What the constructor of [DnsStack] declares under
    [CrossAccountDnsRole], for any properties. *)
Lemma dns_stack_role (id : string) (props : dns_stack.DnsStackProps)
    (e : cdk.Environment) :
  exists roleProps policy,
    lookup_child "CrossAccountDnsRole"
      (children (snd (dns_stack.constructor props (super id e)))) =
      Some (Role roleProps policy) /\
    principal_accounts (iam.assumedBy roleProps) =
      dns_stack.trustedAccountIds props.
Proof.
  eexists _, _. split; [reflexivity |].
  apply principal_accounts_composite.
Qed.

(** C6: on a valid configuration the DNS stack is given the beta, gamma
    and prod account identifiers as [trustedAccountIds], and the principal
    that may assume its cross-account role includes the account principal
    of an identifier exactly when the identifier is one of those. *)
Theorem C6_role_assumable_by_trusted_accounts (ctx : context) (env : environment) :
  all_present (read_config ctx env) ->
  exists app props dns roleProps policy,
    main ctx env = (inr tt, app) /\
    dns_stacks app = [(props, dns)] /\
    dns_stack.trustedAccountIds props =
      [betaAccount (read_config ctx env);
       gammaAccount (read_config ctx env);
       prodAccount (read_config ctx env)] /\
    lookup_child "CrossAccountDnsRole" (children dns) = Some (Role roleProps policy) /\
    (forall accountId,
        In accountId (principal_accounts (iam.assumedBy roleProps)) <->
        In accountId (dns_stack.trustedAccountIds props)).
Proof.
  intros H. rewrite (main_completes ctx env H). clear H.
  generalize (read_config ctx env). intros c.
  set (e := {| cdk.account := dnsAccount c; cdk.region := region c |}).
  set (props := {| dns_stack.env := e;
                   dns_stack.domainName := domainName c;
                   dns_stack.trustedAccountIds :=
                     [betaAccount c; gammaAccount c; prodAccount c] |}).
  destruct (dns_stack_role "DnsStack" props e)
    as (roleProps & policy & Hrole & Haccounts).
  exists (snd (declare_stacks c new_App)), props.
  exists (snd (dns_stack.constructor props (super "DnsStack" e))).
  exists roleProps, policy.
  split; [reflexivity |].
  split; [run_script; reflexivity |].
  split; [reflexivity |].
  split; [exact Hrole |].
  intros accountId. rewrite Haccounts. reflexivity.
Qed.

(** On the sample invocation the trusted accounts are the three stage
    accounts of the environment. *)
Lemma C6_witness_sample :
  all_present (read_config sample_context sample_environment) /\
  exists app props dns,
    main sample_context sample_environment = (inr tt, app) /\
    dns_stacks app = [(props, dns)] /\
    dns_stack.trustedAccountIds props =
      [JStr "222222222222"; JStr "333333333333"; JStr "444444444444"].
Proof.
  split; [exact sample_all_present |].
  destruct (C6_role_assumable_by_trusted_accounts _ _ sample_all_present)
    as (app & props & dns & _ & _ & Hmain & Hdns & Hids & _).
  exists app, props, dns.
  split; [exact Hmain |]. split; [exact Hdns |].
  rewrite Hids. vm_compute. reflexivity.
Defined.

(** ** Instantiating a stack class *)

(** [new C(app, id, props)] completes and appends to the tree the stack
    the constructor body builds from the empty stack [id]. *)
Lemma new_Stack_appends {F : Type} (id : string) (cls : StackClass)
    (e : cdk.Environment) (body : StackM F) (app : App) :
  new_Stack id cls e body app =
    (inr (fst (body (super id e))),
     {| stacks := (stacks app ++ [(cls, snd (body (super id e)))])%list;
        synthesized := synthesized app |}).
Proof. unfold new_Stack. destruct (body (super id e)). reflexivity. Qed.

Ltac instantiate_site id props :=
  exists (fst (static_website_stack.constructor props
                 (super id (static_website_stack.env props)))),
         (snd (static_website_stack.constructor props
                 (super id (static_website_stack.env props))));
  split; [apply new_Stack_appends |].

Ltac instantiate_dns id props :=
  exists (fst (dns_stack.constructor props (super id (dns_stack.env props)))),
         (snd (dns_stack.constructor props (super id (dns_stack.env props))));
  split; [apply new_Stack_appends |].

(** ** Access to the site bucket *)

(** Case analysis on membership in a list of children that is known. *)
Ltac child_cases H :=
  repeat (destruct H as [H | H]; [try discriminate H; inversion H; subst |]);
  try contradiction.

(** C8, as stated, fails: read access to the site bucket is not granted
    to the origin access identity only.  In the beta stack of the sample
    invocation the bucket deployment has the site bucket as its
    destination, and the bucket grants read to that deployment as well. *)
Lemma C8_counterexample_deployment_reads_the_bucket :
  exists app,
    main sample_context sample_environment = (inr tt, app) /\
    List.Exists
      (fun '(_, s) =>
         let oai := {| ref_stack := stackName s; ref_id := "OAI" |} in
         let bucket := {| ref_stack := stackName s; ref_id := "SiteBucket" |} in
         let deployment :=
           {| ref_stack := stackName s; ref_id := "WebsiteDeployment" |} in
         exists bucketProps grantees deployProps,
           lookup_child "SiteBucket" (children s) =
             Some (Bucket bucketProps grantees) /\
           lookup_child "WebsiteDeployment" (children s) =
             Some (BucketDeployment deployProps) /\
           s3deploy.destinationBucket deployProps = bucket /\
           In deployment grantees /\
           deployment <> oai /\
           grantees <> [oai])
      (static_stacks app).
Proof.
  exists (snd (main sample_context sample_environment)).
  split; [vm_compute; reflexivity |].
  vm_compute. apply List.Exists_cons_hd.
  eexists _, _, _.
  split; [reflexivity |]. split; [reflexivity |]. split; [reflexivity |].
  split; [tauto |]. split; intros H; discriminate H.
Qed.

(** C8 (amended): whatever the identifier and the properties, the stack
    that [new StaticWebsiteStack] adds to the tree has a site bucket with
    public read access disabled and all public access blocked; read access
    to it is granted to the stack's origin access identity, by the one
    [grantRead] of the source, and to the bucket deployment that has the
    bucket as destination, and to nothing else; and the distribution's
    default behaviour redirects viewers to HTTPS.  The same holds of each
    of the three static website stacks of the tree the script declares. *)
Theorem C8_site_bucket_closed_to_public_and_https_only
    (id : string) (props : static_website_stack.StaticWebsiteStackProps)
    (app : App) (c : config) :
  (exists this s,
      new_StaticWebsiteStack id props app =
        (inr this,
         {| stacks := (stacks app ++ [(StaticWebsiteStack props, s)])%list;
            synthesized := synthesized app |}) /\
      stackName s = id /\
      guarded_site s) /\
  length (static_stacks (snd (declare_stacks c new_App))) = 3%nat /\
  Forall (fun '(_, s) => guarded_site s)
    (static_stacks (snd (declare_stacks c new_App))).
Proof.
  split; [| split; [reflexivity |]].
  - instantiate_site id props. destruct props as [e d z n r stage].
    unfold guarded_site. cbv -[toString String.append].
    split; [reflexivity |].
    split; [eauto |]. split; [eauto |]. split; [eauto |].
    split; [| split; [eauto |]].
    + intros cid bp grantees H. child_cases H. auto.
    + intros cid dp H. child_cases H. auto.
  - unfold guarded_site. cbv -[toString String.append
       dnsAccount betaAccount gammaAccount prodAccount domainName region].
    repeat (constructor;
            [ split; [eauto |]; split; [eauto |]; split; [eauto |];
              split; [| split; [eauto |]];
              [ intros cid bp grantees H; child_cases H; auto
              | intros cid dp H; child_cases H; auto ] |]).
    constructor.
Qed.

(** ** Removal policies *)

(** C9: the hosted zone of any [DnsStack] is declared with removal policy
    retain-on-update-or-delete, while the site bucket of any
    [StaticWebsiteStack] is declared with removal policy destroy and
    automatic object deletion; so it is in the tree the script declares. *)
Theorem C9_zone_retained_bucket_destroyed
    (dnsId : string) (dnsProps : dns_stack.DnsStackProps)
    (siteId : string) (siteProps : static_website_stack.StaticWebsiteStackProps)
    (app : App) (c : config) :
  (exists this s,
      new_DnsStack dnsId dnsProps app =
        (inr this,
         {| stacks := (stacks app ++ [(DnsStack dnsProps, s)])%list;
            synthesized := synthesized app |}) /\
      zone_retained s) /\
  (exists this s,
      new_StaticWebsiteStack siteId siteProps app =
        (inr this,
         {| stacks := (stacks app ++ [(StaticWebsiteStack siteProps, s)])%list;
            synthesized := synthesized app |}) /\
      bucket_destroyed s) /\
  Forall (fun '(_, s) => zone_retained s)
    (dns_stacks (snd (declare_stacks c new_App))) /\
  Forall (fun '(_, s) => bucket_destroyed s)
    (static_stacks (snd (declare_stacks c new_App))).
Proof.
  split; [| split; [| split]].
  - instantiate_dns dnsId dnsProps. destruct dnsProps as [e d ids].
    unfold zone_retained. cbv -[toString String.append map].
    split; [eauto |].
    intros cid zp removal H. child_cases H. reflexivity.
  - instantiate_site siteId siteProps. destruct siteProps as [e d z n r stage].
    unfold bucket_destroyed. cbv -[toString String.append].
    split; [eauto |].
    intros cid bp grantees H. child_cases H. auto.
  - unfold zone_retained. cbv -[toString String.append
       dnsAccount betaAccount gammaAccount prodAccount domainName region].
    repeat (constructor;
            [ split; [eauto |];
              intros cid zp removal H; child_cases H; reflexivity |]).
    constructor.
  - unfold bucket_destroyed. cbv -[toString String.append
       dnsAccount betaAccount gammaAccount prodAccount domainName region].
    repeat (constructor;
            [ split; [eauto |];
              intros cid bp grantees H; child_cases H; auto |]).
    constructor.
Qed.

(** ** Domains and the website URL *)

Ltac website_url_cases :=
  let v := fresh "v" in
  let H := fresh "H" in
  intros v; split; intros H;
  [ child_cases H; reflexivity | subst v; tauto ].

(** C10: on a valid configuration the three static website stacks are the
    beta, gamma and prod stages, in that order; beta and gamma serve
    ["beta."] and ["gamma."] followed by the configured domain name, prod
    serves the configured domain name itself; and the [WebsiteUrl] output
    of a static website stack, in this tree or made from any properties,
    is ["https://"] followed by the stack's domain name. *)
Theorem C10_stage_domains_and_website_url (ctx : context) (env : environment) :
  all_present (read_config ctx env) ->
  exists app beta gamma prod,
    main ctx env = (inr tt, app) /\
    static_stacks app = [beta; gamma; prod] /\
    static_website_stack.stageName (fst beta) = "beta" /\
    static_website_stack.stageName (fst gamma) = "gamma" /\
    static_website_stack.stageName (fst prod) = "prod" /\
    static_website_stack.domainName (fst beta) =
      JStr ("beta." ++ toString (domainName (read_config ctx env))) /\
    static_website_stack.domainName (fst gamma) =
      JStr ("gamma." ++ toString (domainName (read_config ctx env))) /\
    static_website_stack.domainName (fst prod) =
      domainName (read_config ctx env) /\
    (forall d,
        domainName (read_config ctx env) = JStr d ->
        map (fun site => static_website_stack.domainName (fst site))
            (static_stacks app) =
          [JStr ("beta." ++ d); JStr ("gamma." ++ d); JStr d]) /\
    Forall (fun '(props, s) =>
              serves s (static_website_stack.domainName props) /\
              website_url s
                ("https://" ++ toString (static_website_stack.domainName props)))
      (static_stacks app) /\
    (forall id props app0,
        exists this s,
          new_StaticWebsiteStack id props app0 =
            (inr this,
             {| stacks := (stacks app0 ++ [(StaticWebsiteStack props, s)])%list;
                synthesized := synthesized app0 |}) /\
          serves s (static_website_stack.domainName props) /\
          website_url s
            ("https://" ++ toString (static_website_stack.domainName props))).
Proof.
  intros H. rewrite (main_completes ctx env H). clear H.
  generalize (read_config ctx env). intros c.
  exists (snd (declare_stacks c new_App)).
  eexists _, _, _.
  split; [reflexivity |].
  split; [run_script; reflexivity |].
  do 6 (split; [reflexivity |]).
  split; [| split].
  - intros d Hd. run_script. rewrite Hd. reflexivity.
  - unfold serves, website_url. run_script.
    repeat (constructor;
            [ split; [repeat split; eauto | website_url_cases] |]).
    constructor.
  - intros id props app0. instantiate_site id props.
    destruct props as [e d z n r stage].
    unfold serves, website_url. cbv -[toString String.append].
    split; [repeat split; eauto | website_url_cases].
Qed.

(** On the sample invocation the stages serve [beta.example.com],
    [gamma.example.com] and [example.com]. *)
Lemma C10_witness_sample :
  all_present (read_config sample_context sample_environment) /\
  exists app,
    main sample_context sample_environment = (inr tt, app) /\
    map (fun site => static_website_stack.domainName (fst site))
        (static_stacks app) =
      [JStr "beta.example.com"; JStr "gamma.example.com"; JStr "example.com"].
Proof.
  split; [exact sample_all_present |].
  destruct (C10_stage_domains_and_website_url _ _ sample_all_present)
    as (app & beta & gamma & prod & Hmain & _ & _ & _ & _ & _ & _ & _ & Hd & _).
  exists app. split; [exact Hmain |].
  apply (Hd "example.com"). vm_compute. reflexivity.
Defined.

(** * Further properties *)

(** ** The remedies of the validation error *)

(** The script sees the context and the environment through the
    configuration object only. *)
Lemma main_of_read_config (ctx ctx' : context) (env env' : environment) :
  read_config ctx env = read_config ctx' env' -> main ctx env = main ctx' env'.
Proof. unfold main, script. intros ->. reflexivity. Qed.

Lemma read_config_agree (ctx ctx' : context) (env env' : environment) :
  (forall key, In key context_keys -> ctx !! key = ctx' !! key) ->
  (forall var, In var environment_variables -> env !! var = env' !! var) ->
  read_config ctx env = read_config ctx' env'.
Proof.
  intros Hctx Henv. unfold read_config, tryGetContext, process_env.
  rewrite !Hctx by (simpl; tauto). rewrite !Henv by (simpl; tauto).
  reflexivity.
Qed.

Lemma append_nil_r (s : string) : s ++ "" = s.
Proof.
  induction s as [| a s IH]; [reflexivity |].
  change (String a (s ++ "") = String a s). f_equal. exact IH.
Qed.

(** X3: of the two remedies the validation error proposes for a required
    field, the context one works and the environment one does not.  The
    variable the message names, the upper-cased field name, is not the
    variable the configuration object reads: setting it leaves the outcome
    of the script unchanged, while a non-empty [--context] value, or a
    non-empty value of the variable actually read when the context has
    none, becomes the value of the field. *)
Theorem X3_message_names_a_variable_that_is_not_read
    (ctx : context) (env : environment) (field value : string) :
  In field requiredFields ->
  includes (missing_message field)
    ("environment variable " ++ toUpperCase field) = true /\
  main ctx (<[ toUpperCase field := value ]> env) = main ctx env /\
  (value <> "" ->
   config_lookup (read_config (<[ field := JStr value ]> ctx) env) field =
     JStr value) /\
  exists var,
    env_var field = Some var /\
    var <> toUpperCase field /\
    (value <> "" ->
     truthy (tryGetContext ctx field) = false ->
     config_lookup (read_config ctx (<[ var := value ]> env)) field = JStr value).
Proof.
  intros Hin.
  assert (Htruthy : value <> "" -> truthy (JStr value) = true).
  { intros Hne. simpl. apply negb_true_iff, String.eqb_neq. exact Hne. }
  split; [| split; [| split]].
  - replace (missing_message field)
      with (("Missing required configuration: " ++ field ++ ". " ++
             "Set via --context " ++ field ++ "=value or ") ++
            ("environment variable " ++ toUpperCase field) ++ "").
    + apply includes_append.
    + unfold missing_message. rewrite !append_assoc, append_nil_r. reflexivity.
  - apply main_of_read_config, read_config_agree; [reflexivity |].
    intros var Hvar. apply lookup_insert_ne. intros Heq.
    required_field_cases Hin; vm_compute in Heq; subst var;
      simpl in Hvar; intuition discriminate.
  - intros Hne.
    destruct (config_lookup_required (<[ field := JStr value ]> ctx) env field Hin)
      as (var & _ & ->).
    unfold tryGetContext, context. rewrite lookup_insert_eq. simpl default.
    apply js_or_truthy, Htruthy, Hne.
  - destruct (config_lookup_required ctx env field Hin) as (var & Hvar & _).
    exists var. split; [exact Hvar |]. split.
    + required_field_cases Hin; injection Hvar as <-; vm_compute; discriminate.
    + intros Hne Hctx.
      destruct (config_lookup_required ctx (<[ var := value ]> env) field Hin)
        as (var' & Hvar' & ->).
      rewrite Hvar in Hvar'. injection Hvar' as <-.
      rewrite (js_or_falsy _ _ Hctx).
      unfold process_env, environment. rewrite lookup_insert_eq. reflexivity.
Qed.

(** For [dnsAccount] the message names [DNSACCOUNT]; setting it on top of
    the sample invocation changes nothing. *)
Lemma X3_witness_dnsAccount :
  In "dnsAccount" requiredFields /\
  main sample_context (<[ "DNSACCOUNT" := "111111111111" ]> sample_environment) =
    main sample_context sample_environment.
Proof.
  assert (Hin : In "dnsAccount" requiredFields) by (simpl; tauto).
  split; [exact Hin |].
  destruct (X3_message_names_a_variable_that_is_not_read
              sample_context sample_environment "dnsAccount" "111111111111" Hin)
    as (_ & Hmain & _).
  exact Hmain.
Defined.

(** ** Identifiers, references and names *)

(** No string of a known list is a later string of it. *)
Ltac distinct_literals :=
  repeat (constructor;
          [ let H := fresh "H" in
            intros H; repeat (destruct H as [H | H]; [discriminate H |]);
            exact H |]);
  constructor.

(** X4: no constructor declares two constructs under one identifier,
    whatever the identifier and the properties of the stack, and the four
    stacks of the script have four different names; so the library's
    refusal of a second construct with the name of a sibling cannot
    arise. *)
Theorem X4_identifiers_are_unique
    (dnsId : string) (dnsProps : dns_stack.DnsStackProps)
    (siteId : string) (siteProps : static_website_stack.StaticWebsiteStackProps)
    (app : App) (c : config) :
  (exists this s,
      new_DnsStack dnsId dnsProps app =
        (inr this,
         {| stacks := (stacks app ++ [(DnsStack dnsProps, s)])%list;
            synthesized := synthesized app |}) /\
      List.NoDup (map fst (children s))) /\
  (exists this s,
      new_StaticWebsiteStack siteId siteProps app =
        (inr this,
         {| stacks := (stacks app ++ [(StaticWebsiteStack siteProps, s)])%list;
            synthesized := synthesized app |}) /\
      List.NoDup (map fst (children s))) /\
  List.NoDup
    (map (fun '(_, s) => stackName s) (stacks (snd (declare_stacks c new_App)))).
Proof.
  split; [| split].
  - instantiate_dns dnsId dnsProps. destruct dnsProps as [e d ids].
    cbv -[toString String.append map]. distinct_literals.
  - instantiate_site siteId siteProps. destruct siteProps as [e d z n r stage].
    cbv -[toString String.append]. distinct_literals.
  - run_script. distinct_literals.
Qed.

(** A common prefix does not make two different suffixes equal. *)
Lemma append_inj_r (p a b : string) : p ++ a = p ++ b -> a = b.
Proof.
  induction p as [| x p IH]; intros H; [exact H |].
  apply IH. change (String x (p ++ a) = String x (p ++ b)) in H.
  injection H as H. exact H.
Qed.

(** X7: the outputs a [DnsStack] exports are exported under three
    different names, each the name of the stack followed by a hyphen and
    the identifier of the output; [NameServers] and the outputs of a
    [StaticWebsiteStack] are not exported, so the three website stacks,
    whose outputs have the same identifiers, export no clashing name. *)
Theorem X7_export_names
    (dnsId : string) (dnsProps : dns_stack.DnsStackProps)
    (siteId : string) (siteProps : static_website_stack.StaticWebsiteStackProps)
    (app : App) :
  (exists this s,
      new_DnsStack dnsId dnsProps app =
        (inr this,
         {| stacks := (stacks app ++ [(DnsStack dnsProps, s)])%list;
            synthesized := synthesized app |}) /\
      export_names s =
        [dnsId ++ "-HostedZoneId"; dnsId ++ "-HostedZoneName";
         dnsId ++ "-CrossAccountRoleArn"] /\
      List.NoDup (export_names s)) /\
  (exists this s,
      new_StaticWebsiteStack siteId siteProps app =
        (inr this,
         {| stacks := (stacks app ++ [(StaticWebsiteStack siteProps, s)])%list;
            synthesized := synthesized app |}) /\
      export_names s = []).
Proof.
  split.
  - instantiate_dns dnsId dnsProps. destruct dnsProps as [e d ids].
    assert (Hnames :
      export_names
        (snd (dns_stack.constructor
                {| dns_stack.env := e; dns_stack.domainName := d;
                   dns_stack.trustedAccountIds := ids |}
                (super dnsId e))) =
      [dnsId ++ "-HostedZoneId"; dnsId ++ "-HostedZoneName";
       dnsId ++ "-CrossAccountRoleArn"]).
    { cbv -[toString String.append map]. reflexivity. }
    cbn [dns_stack.env]. rewrite Hnames. split; [reflexivity |].
    repeat (constructor;
            [ let H := fresh "H" in
              intros H;
              repeat (destruct H as [H | H];
                      [apply append_inj_r in H; discriminate H |]);
              exact H |]).
    constructor.
  - instantiate_site siteId siteProps. destruct siteProps as [e d z n r stage].
    cbv -[toString String.append]. reflexivity.
Qed.

(** X6: the policy of the cross-account role of any [DnsStack] is
    confined to DNS.  It has two statements, both allowing [route53:]
    actions only; changing record sets is allowed on the stack's own
    hosted zone and on change batches, not on every zone; and the
    statement over every resource allows only [GetHostedZone] and
    [ListHostedZones]. *)
Theorem X6_cross_account_role_policy_is_dns_only
    (id : string) (props : dns_stack.DnsStackProps) (app : App) :
  exists this s,
    new_DnsStack id props app =
      (inr this,
       {| stacks := (stacks app ++ [(DnsStack props, s)])%list;
          synthesized := synthesized app |}) /\
    dns_stack.hostedZone this = {| ref_stack := id; ref_id := "RootHostedZone" |} /\
    (lookup_child "RootHostedZone" (children s) ≫= kind_of) = Some HostedZoneKind /\
    length (role_policies s) = 2%nat /\
    dns_only_policy (dns_stack.hostedZone this) (role_policies s).
Proof.
  instantiate_dns id props. destruct props as [e d ids].
  unfold dns_only_policy. cbv -[toString String.append map].
  do 3 (split; [reflexivity |]).
  split; [| split].
  - repeat constructor.
  - intros st Hst Hchange.
    repeat (destruct Hst as [<- | Hst]); [reflexivity | |contradiction].
    cbn in Hchange. repeat (destruct Hchange as [Hchange | Hchange];
                             [discriminate Hchange |]).
    contradiction.
  - intros st Hst Hall action Haction.
    repeat (destruct Hst as [<- | Hst]); [| |contradiction].
    + cbn in Hall. repeat (destruct Hall as [Hall | Hall]; [discriminate Hall |]).
      contradiction.
    + cbn in Haction. destruct Haction as [<- | [<- | []]]; auto.
Qed.

(** X12: the constructs of any [StaticWebsiteStack] fit together: one
    bucket, one certificate and one distribution, referred to consistently
    by the distribution's origin, the alias record, the deployment and the
    public fields of the stack. *)
Theorem X12_static_website_stack_is_coherent
    (id : string) (props : static_website_stack.StaticWebsiteStackProps)
    (app : App) :
  exists this s,
    new_StaticWebsiteStack id props app =
      (inr this,
       {| stacks := (stacks app ++ [(StaticWebsiteStack props, s)])%list;
          synthesized := synthesized app |}) /\
    stackName s = id /\
    coherent_site this s.
Proof.
  instantiate_site id props. destruct props as [e d z n r stage].
  unfold coherent_site. cbv -[toString String.append].
  split; [reflexivity |].
  eexists _, _, _, _, _, _, _.
  do 17 (split; [reflexivity |]).
  repeat constructor.
Qed.

(** ** The tree of a valid configuration *)

Ltac resolved_references :=
  repeat (constructor;
          [ repeat (constructor; [split; [eexists; reflexivity | tauto] |]);
            constructor |]);
  constructor.

(** X5: in the tree of a valid configuration no reference dangles.  Every
    construct that a stack refers to, from the properties it was made from
    or from a construct it holds, is declared in the tree, and it lives in
    the same stack or in a stack the referring stack depends on. *)
Theorem X5_references_resolve_within_dependencies
    (ctx : context) (env : environment) :
  all_present (read_config ctx env) ->
  exists app,
    main ctx env = (inr tt, app) /\
    Forall (fun '(cls, s) =>
              Forall (fun r =>
                        is_Some (lookup_construct app r) /\
                        (ref_stack r = stackName s \/
                         In (ref_stack r) (dependencies s)))
                     (class_refs cls ++ stack_refs s)%list)
           (stacks app).
Proof.
  intros H. on_declared_tree H c.
  run_script. resolved_references.
Qed.

(** The sample invocation is valid, and its tree has stacks to speak
    of. *)
Lemma X5_witness_sample :
  all_present (read_config sample_context sample_environment) /\
  exists app,
    main sample_context sample_environment = (inr tt, app) /\
    stacks app <> [].
Proof.
  split; [exact sample_all_present |].
  destruct (X5_references_resolve_within_dependencies _ _ sample_all_present)
    as (app & Hmain & Hrefs).
  exists app. split; [exact Hmain |].
  intros Hnil.
  assert (Happ : app = snd (main sample_context sample_environment))
    by (rewrite Hmain; reflexivity).
  rewrite Happ in Hnil. vm_compute in Hnil. discriminate Hnil.
Defined.

(** X11: in the tree of a valid configuration the DNS stack depends on no
    stack and each static website stack depends on the DNS stack and on
    nothing else; no stack depends on itself, and a stack depends only on
    a stack declared before it. *)
Theorem X11_dependencies_point_at_the_dns_stack
    (ctx : context) (env : environment) :
  all_present (read_config ctx env) ->
  exists app,
    main ctx env = (inr tt, app) /\
    Forall (fun '(_, s) => dependencies s = []) (dns_stacks app) /\
    Forall (fun '(_, s) => dependencies s = ["DnsStack"]) (static_stacks app) /\
    head (map (fun '(_, s) => stackName s) (stacks app)) = Some "DnsStack" /\
    Forall (fun '(_, s) => ~ In (stackName s) (dependencies s)) (stacks app).
Proof.
  intros H. on_declared_tree H c.
  run_script.
  split; [repeat constructor |]. split; [repeat constructor |].
  split; [reflexivity |].
  repeat (constructor;
          [ let Hd := fresh "Hd" in
            intros Hd; repeat (destruct Hd as [Hd | Hd]; [discriminate Hd |]);
            exact Hd |]).
  constructor.
Qed.

(** The tree of the sample invocation starts with the DNS stack. *)
Lemma X11_witness_sample :
  all_present (read_config sample_context sample_environment) /\
  exists app,
    main sample_context sample_environment = (inr tt, app) /\
    head (map (fun '(_, s) => stackName s) (stacks app)) = Some "DnsStack".
Proof.
  split; [exact sample_all_present |].
  destruct (X11_dependencies_point_at_the_dns_stack _ _ sample_all_present)
    as (app & Hmain & _ & _ & Hhead & _).
  exists app. split; [exact Hmain | exact Hhead].
Defined.

(** X8: in the tree of a valid configuration the three site buckets are
    named after their stage and their account, and the three names differ
    whatever the accounts are, also when two stages share an account. *)
Theorem X8_bucket_names_differ (ctx : context) (env : environment) :
  all_present (read_config ctx env) ->
  exists app,
    main ctx env = (inr tt, app) /\
    app_bucket_names app =
      ["beta" ++ "-website-" ++ toString (betaAccount (read_config ctx env));
       "gamma" ++ "-website-" ++ toString (gammaAccount (read_config ctx env));
       "prod" ++ "-website-" ++ toString (prodAccount (read_config ctx env))] /\
    List.NoDup (app_bucket_names app).
Proof.
  intros H. on_declared_tree H c.
  assert (Hnames :
    app_bucket_names (snd (declare_stacks c new_App)) =
      ["beta" ++ "-website-" ++ toString (betaAccount c);
       "gamma" ++ "-website-" ++ toString (gammaAccount c);
       "prod" ++ "-website-" ++ toString (prodAccount c)]).
  { run_script. reflexivity. }
  rewrite Hnames. split; [reflexivity |].
  repeat (constructor;
          [ let Hd := fresh "Hd" in
            intros Hd;
            repeat (destruct Hd as [Hd | Hd];
                    [ cbv -[toString betaAccount gammaAccount prodAccount] in Hd;
                      discriminate Hd |]);
            exact Hd |]).
  constructor.
Qed.

(** The bucket names of the sample invocation. *)
Lemma X8_witness_sample :
  all_present (read_config sample_context sample_environment) /\
  exists app,
    main sample_context sample_environment = (inr tt, app) /\
    app_bucket_names app =
      ["beta-website-222222222222"; "gamma-website-333333333333";
       "prod-website-444444444444"].
Proof.
  split; [exact sample_all_present |].
  destruct (X8_bucket_names_differ _ _ sample_all_present)
    as (app & Hmain & Hnames & _).
  exists app. split; [exact Hmain |].
  rewrite Hnames. vm_compute. reflexivity.
Defined.

(** A string ends with itself and with any string appended to it. *)
Lemma endsWith_unfold (s suffix : string) :
  endsWith s suffix =
  String.eqb s suffix ||
  match s with
  | EmptyString => false
  | String _ rest => endsWith rest suffix
  end.
Proof. destruct s; reflexivity. Qed.

Lemma endsWith_refl (s : string) : endsWith s s = true.
Proof. rewrite endsWith_unfold, String.eqb_refl. reflexivity. Qed.

Lemma endsWith_append (a b : string) : endsWith (a ++ b) b = true.
Proof.
  induction a as [| x a IH].
  - change (endsWith b b = true). apply endsWith_refl.
  - change (endsWith (String x (a ++ b)) b = true).
    rewrite endsWith_unfold, IH. apply orb_true_r.
Qed.

(** X9: in the tree of a valid configuration every record lies in the
    zone.  The hosted zone of the DNS stack is the zone of the configured
    domain; each static website stack imports a zone of that name; and
    the domain it serves, as a string, ends with that name. *)
Theorem X9_served_domains_lie_in_the_hosted_zone
    (ctx : context) (env : environment) :
  all_present (read_config ctx env) ->
  exists app,
    main ctx env = (inr tt, app) /\
    Forall (fun '(_, s) =>
              exists removal,
                lookup_child "RootHostedZone" (children s) =
                  Some (PublicHostedZone
                          {| route53.zoneName := domainName (read_config ctx env) |}
                          removal))
           (dns_stacks app) /\
    Forall (fun '(props, s) =>
              (exists attrs,
                  lookup_child "HostedZone" (children s) =
                    Some (ImportedHostedZone attrs) /\
                  route53.zoneName' attrs = domainName (read_config ctx env)) /\
              endsWith (toString (static_website_stack.domainName props))
                       (toString (domainName (read_config ctx env))) = true)
           (static_stacks app).
Proof.
  intros H. on_declared_tree H c.
  split.
  - run_script. repeat constructor. eexists. reflexivity.
  - unfold static_stacks.
    cbv -[toString String.append endsWith
          dnsAccount betaAccount gammaAccount prodAccount domainName region].
    repeat (constructor;
            [ split;
              [ eexists; split; reflexivity
              | cbn [toString];
                first [apply endsWith_append | apply endsWith_refl] ] |]).
    constructor.
Qed.

(** The domains of the sample invocation end with [example.com]. *)
Lemma X9_witness_sample :
  all_present (read_config sample_context sample_environment) /\
  exists app,
    main sample_context sample_environment = (inr tt, app) /\
    Forall (fun '(props, s) =>
              endsWith (toString (static_website_stack.domainName props))
                       "example.com" = true)
           (static_stacks app).
Proof.
  split; [exact sample_all_present |].
  destruct (X9_served_domains_lie_in_the_hosted_zone _ _ sample_all_present)
    as (app & Hmain & _ & Hsites).
  exists app. split; [exact Hmain |].
  eapply List.Forall_impl; [| exact Hsites].
  intros [props s] [_ Hends]. exact Hends.
Defined.

(** X10: in the tree of a valid configuration each stack is deployed to
    its own configured account, which is truthy, and all four stacks to
    one region: the region of the context when that is truthy, and
    ["us-east-1"] otherwise.  Nothing pins the stacks that hold the
    certificates to ["us-east-1"] when the context names another
    region. *)
Theorem X10_accounts_and_region_of_the_stacks
    (ctx : context) (penv : environment) :
  all_present (read_config ctx penv) ->
  exists app,
    main ctx penv = (inr tt, app) /\
    map (fun '(_, s) => (stackName s, cdk.account (env s))) (stacks app) =
      [("DnsStack", dnsAccount (read_config ctx penv));
       ("BetaStaticWebsiteStack", betaAccount (read_config ctx penv));
       ("GammaStaticWebsiteStack", gammaAccount (read_config ctx penv));
       ("ProdStaticWebsiteStack", prodAccount (read_config ctx penv))] /\
    Forall (fun '(_, s) => truthy (cdk.account (env s)) = true) (stacks app) /\
    (truthy (tryGetContext ctx "region") = true ->
     Forall (fun '(_, s) => cdk.region (env s) = tryGetContext ctx "region")
            (stacks app)) /\
    (truthy (tryGetContext ctx "region") = false ->
     Forall (fun '(_, s) => cdk.region (env s) = JStr "us-east-1") (stacks app)).
Proof.
  intros H. rewrite (main_completes ctx penv H).
  exists (snd (declare_stacks (read_config ctx penv) new_App)).
  split; [reflexivity |].
  assert (Hregion :
    forall v, region (read_config ctx penv) = v ->
      Forall (fun '(_, s) => cdk.region (env s) = v)
             (stacks (snd (declare_stacks (read_config ctx penv) new_App)))).
  { generalize (read_config ctx penv). intros c v <-.
    run_script. repeat constructor. }
  destruct H as (Hdns & Hbeta & Hgamma & Hprod & _).
  split; [| split; [| split]].
  - generalize (read_config ctx penv). intros c. run_script. reflexivity.
  - revert Hdns Hbeta Hgamma Hprod. generalize (read_config ctx penv).
    intros c Hdns Hbeta Hgamma Hprod.
    cbv -[toString String.append truthy
          dnsAccount betaAccount gammaAccount prodAccount domainName region].
    repeat constructor; assumption.
  - intros Hctx. apply Hregion. apply js_or_truthy, Hctx.
  - intros Hctx. apply Hregion. apply js_or_falsy, Hctx.
Qed.

(** The sample invocation names no region: its stacks are in
    [us-east-1]. *)
Lemma X10_witness_sample :
  all_present (read_config sample_context sample_environment) /\
  exists app,
    main sample_context sample_environment = (inr tt, app) /\
    Forall (fun '(_, s) => cdk.region (env s) = JStr "us-east-1") (stacks app).
Proof.
  split; [exact sample_all_present |].
  destruct (X10_accounts_and_region_of_the_stacks _ _ sample_all_present)
    as (app & Hmain & _ & _ & _ & Hdefault).
  exists app. split; [exact Hmain |].
  apply Hdefault. vm_compute. reflexivity.
Defined.
